(** * Presentation_Agents: the agent orchestration core

    A shallow embedding of
      - app/agents/specialist_agent.py   (SpecialistAgent)
      - app/agents/factory.py            (the registered tools)
      - app/services/agent_manager.py    (AgentManager)
      - app/dependencies.py, app/routers/system.py (the request boundary)

    Conventions.
      - Python [str] is [string]; [int] is [Z]; a JSON-like value is [pyval],
        whose dictionaries are association lists in insertion order.
      - A call that may raise returns [res A], where [Raise e] stands for an
        exception of class [Exception]; [try ... except Exception] is a match
        on that result. Cancellation (asyncio) is not modelled.
      - Awaited calls that reach the outside (the language model, the other
        agent, the components' probes) thread a [World] through, which
        records every prompt given to the model.
      - Logging is not modelled. *)

From Stdlib Require Import ZArith Ascii Lia.
From stdpp Require Import base option list strings pretty gmap.

Local Open Scope Z_scope.

(** ** Python strings *)

Module Str.

(** [s.startswith(pat)] *)
Fixpoint starts_with (pat s : string) : bool :=
  match pat with
  | EmptyString => true
  | String a pat' =>
      match s with
      | EmptyString => false
      | String b s' => Ascii.eqb a b && starts_with pat' s'
      end
  end.

(** [s.find(pat)] as an option: index of the first occurrence. *)
Fixpoint find (pat s : string) : option nat :=
  if starts_with pat s then Some 0%nat
  else match s with
       | EmptyString => None
       | String _ s' => S <$> find pat s'
       end.

(** [s.rfind(pat)] as an option: index of the last occurrence. *)
Fixpoint rfind (pat s : string) : option nat :=
  match s with
  | EmptyString => if starts_with pat s then Some 0%nat else None
  | String _ s' =>
      match rfind pat s' with
      | Some i => Some (S i)
      | None => if starts_with pat s then Some 0%nat else None
      end
  end.

(** Python reports a missing occurrence as -1. *)
Definition index_or_minus1 (o : option nat) : Z :=
  match o with Some i => Z.of_nat i | None => -1 end.

Definition py_find (pat s : string) : Z := index_or_minus1 (find pat s).
Definition py_rfind (pat s : string) : Z := index_or_minus1 (rfind pat s).

(** [pat in s] *)
Definition contains (pat s : string) : bool :=
  match find pat s with Some _ => true | None => false end.

(** One bound of a slice: negative bounds count from the end, and every
    bound is clamped to [0, len]. *)
Definition clamp (len i : Z) : Z :=
  if i <? 0 then Z.max 0 (i + len) else Z.min i len.

(** [s[lo:hi]] *)
Definition slice (s : string) (lo hi : Z) : string :=
  let len := Z.of_nat (String.length s) in
  let a := clamp len lo in
  let b := clamp len hi in
  String.substring (Z.to_nat a) (Z.to_nat (b - a)) s.

(** [s.replace(old, new)] for a non-empty [old]: occurrences are replaced
    from the left and do not overlap; [skip] counts the characters of the
    occurrence just replaced that are still to be passed over. *)
Fixpoint replace_go (old new : string) (skip : nat) (s : string) : string :=
  match s with
  | EmptyString => EmptyString
  | String c s' =>
      match skip with
      | S k => replace_go old new k s'
      | O =>
          if starts_with old s
          then new +:+ replace_go old new (String.length old - 1) s'
          else String c (replace_go old new 0 s')
      end
  end.

Definition replace (old new s : string) : string := replace_go old new 0 s.

(** [s.split(sep, 1)] for a one-character separator that occurs in [s]:
    the text before the first separator and the text after it. *)
Fixpoint split_once (sep : ascii) (s : string) : option (string * string) :=
  match s with
  | EmptyString => None
  | String c s' =>
      if Ascii.eqb c sep then Some (EmptyString, s')
      else match split_once sep s' with
           | Some (a, b) => Some (String c a, b)
           | None => None
           end
  end.

End Str.

(** ** Values, exceptions and the outside world *)

(** What a tool, the model or a [.dict()] call hands back. *)
#[warnings="-register-all"] Inductive pyval : Type :=
  | PNone
  | PBool (b : bool)
  | PInt (n : Z)
  | PStr (s : string)
  | PDatetime (t : Z)
  | PList (l : list pyval)
  | PDict (d : list (string * pyval)).

Abbreviation pydict := (list (string * pyval)).

(** [bool(v)] *)
Definition truthy (v : pyval) : bool :=
  match v with
  | PNone => false
  | PBool b => b
  | PInt n => negb (n =? 0)
  | PStr s => negb (String.eqb s "")
  | PDatetime _ => true
  | PList l => match l with [] => false | _ => true end
  | PDict d => match d with [] => false | _ => true end
  end.

(** An exception object: its class and [str(e)]. *)
Record exn : Type := Exception { exn_class : string; exn_str : string }.

Inductive res (A : Type) : Type :=
  | Ok (a : A)
  | Raise (e : exn).
Arguments Ok {A} a.
Arguments Raise {A} e.

Definition res_bind {A B} (r : res A) (k : A -> res B) : res B :=
  match r with
  | Ok a => k a
  | Raise e => Raise e
  end.

#[global] Instance res_mbind : MBind res := fun A B k r => res_bind r k.
#[global] Instance res_mret : MRet res := fun A a => Ok a.

Definition is_ok {A} (r : res A) : bool :=
  match r with Ok _ => true | Raise _ => false end.

(** [k in d] and [d.get(k)] on a dictionary. *)
Fixpoint dict_lookup (d : pydict) (k : string) : option pyval :=
  match d with
  | [] => None
  | (k', v) :: d' => if String.eqb k' k then Some v else dict_lookup d' k
  end.

Definition dict_has (d : pydict) (k : string) : bool :=
  match dict_lookup d k with Some _ => true | None => false end.

Definition AttributeError (what : string) : exn :=
  Exception "AttributeError" (what +:+ " object has no attribute 'get'").

Definition type_name (v : pyval) : string :=
  match v with
  | PNone => "'NoneType'"
  | PBool _ => "'bool'"
  | PInt _ => "'int'"
  | PStr _ => "'str'"
  | PDatetime _ => "'datetime.datetime'"
  | PList _ => "'list'"
  | PDict _ => "'dict'"
  end.

(** [v.get(k, default)]: only a dictionary has the method. *)
Definition py_get (v : pyval) (k : string) (dflt : pyval) : res pyval :=
  match v with
  | PDict d => Ok (default dflt (dict_lookup d k))
  | _ => Raise (AttributeError (type_name v))
  end.

(** What [await agent.run(prompt)] returns: the [.data] attribute and the
    text [str(result)]. *)
Record RunResult : Type := { data : pyval; result_str : string }.

(** The world outside the process: how the language model answers a prompt
    given the prompts it has already been given, the prompts given so far
    (oldest first), and the clock that [datetime.utcnow()] reads. *)
Record World : Type := {
  respond : list string -> string -> res RunResult;
  prompts : list string;
  clock : Z
}.

(** [await self.agent.run(prompt)] *)
Definition agent_run (w : World) (prompt : string) : World * res RunResult :=
  ({| respond := respond w; prompts := prompts w ++ [prompt]; clock := clock w |},
   respond w (prompts w) prompt).

Definition utcnow (w : World) : Z := clock w.

(** ** Models (app/models) *)

Record RepoMetrics : Type := {
  stars : pyval;
  forks : pyval;
  watchers : pyval;
  open_issues : pyval;
  size : pyval;
  language : pyval;
  default_branch : pyval
}.

(** The keyword arguments [_analyze_repository] gives to
    [GitHubRepository(...)]; its declaration (models/schemas.py) decides
    whether they make a record, see [Schemas]. *)
Record GitHubRepository : Type := {
  name : string;
  full_name : string;
  owner : string;
  description : pyval;
  url : pyval;
  homepage : pyval;
  created_at : pyval;
  updated_at : pyval;
  pushed_at : pyval;
  metrics : RepoMetrics;
  topics : pyval;
  license : pyval;
  is_fork : pyval;
  archived : pyval
}.

Record RepoIntelRequest : Type := {
  repositories : list string;
  include_metrics : bool
}.

Record RepoIntelResponse : Type := {
  resp_repositories : list GitHubRepository;
  total_repos : Z;
  resp_analysis_timestamp : Z;
  insights : option string
}.

Record TechTrendsRequest : Type := {
  tt_query : string;
  tt_limit : Z;
  include_hn : bool;
  include_brave : bool
}.

Record TechTrendsResponse : Type := {
  trends_query : string;
  trends : list pyval;
  total_items : Z;
  sources : list string;
  trends_analysis_timestamp : Z;
  summary : option string
}.

Record GeneralChatRequest : Type := { message : string }.

Record GeneralChatResponse : Type := {
  response : string;
  chat_timestamp : Z;
  message_type : string
}.

Record CombinedAnalysisRequest : Type := {
  ca_query : string;
  trend_limit : Z;
  auto_detect_repos : bool
}.

Record CombinedAnalysisResponse : Type := {
  car_query : string;
  car_trends : TechTrendsResponse;
  car_repositories : RepoIntelResponse;
  correlation_analysis : pydict;
  recommendations : list string;
  car_analysis_timestamp : Z
}.

(** What the sources under study do not contain: the declarations of
    models/requests.py and models/schemas.py. Constructing a model of
    models/responses.py with every field given is record construction. *)
Record Schemas : Type := {
  (** does [GitHubRepository(...)] (with its [RepoMetrics(...)]) validate *)
  repository_valid : GitHubRepository -> bool;
  (** the declared defaults of request fields that callers leave out *)
  include_metrics_default : bool;
  include_hn_default : bool;
  include_brave_default : bool;
  (** does [RepoIntelRequest(...)] validate *)
  repo_request_valid : RepoIntelRequest -> bool;
  (** does [TechTrendsRequest(...)] validate *)
  trends_request_valid : TechTrendsRequest -> bool;
  (** does [GeneralChatRequest(...)] validate *)
  chat_request_valid : GeneralChatRequest -> bool;
  (** does a dictionary validate as a [TrendAnalysis] *)
  trend_analysis_valid : pydict -> bool;
  (** the text of a list of records inside an f-string *)
  repr_repositories : list GitHubRepository -> string
}.

Definition ValidationError (model : string) : exn :=
  Exception "ValidationError" ("validation error for " +:+ model).

(** The validation error for a required field that was not given (its
    text is abridged). *)
Definition MissingField (model field : string) : exn :=
  Exception "ValidationError"
    ("1 validation error for " +:+ model +:+ ": " +:+ field
       +:+ ": Field required").

(** ** The capability registry (app/utils, not among the sources) *)

(** One connected capability: [await client.call_tool(operation, args)]. *)
Record Client : Type := {
  call_tool : World -> string -> pydict -> World * res pyval
}.

(** Modelled from the spec: MCPClientManager, the registry of section 4.1,
    whose source is missing. It holds the connected capabilities by name and
    a probe of all of them; [get] "on an unknown or not-yet-connected name
    returns an explicit absent sentinel". *)
Record MCPClientManager : Type := {
  clients : gmap string Client;
  health_check_all : World -> World * res pyval
}.

(** Modelled from the spec: [get(name) -> handle|absent]. *)
Definition get_client (m : MCPClientManager) (name : string) : option Client :=
  clients m !! name.

(** ** SpecialistAgent (app/agents/specialist_agent.py) *)

Record SpecialistAgent : Type := {
  sa_mcp_manager : option MCPClientManager;
  agent_name : string
}.

Definition nl : string := String "010"%char EmptyString.

Section Specialist.

Variable schemas : Schemas.

(** The [return GitHubRepository(...)] of [_analyze_repository], from
    [metrics = repo_details.get("metrics", {})] on. *)
Definition repository_record (repo_name owner_ repo : string)
    (repo_details : pyval) : res GitHubRepository :=
  (metrics_ ← py_get repo_details "metrics" (PDict []);
   description_ ← py_get repo_details "description" (PStr "");
   url_ ← py_get repo_details "html_url"
             (PStr ("https://github.com/" +:+ repo_name));
   homepage_ ← py_get repo_details "homepage" PNone;
   created_ ← py_get repo_details "created_at" PNone;
   updated_ ← py_get repo_details "updated_at" PNone;
   pushed_ ← py_get repo_details "pushed_at" PNone;
   stars_ ← py_get metrics_ "stars" (PInt 0);
   forks_ ← py_get metrics_ "forks" (PInt 0);
   watchers_ ← py_get metrics_ "watchers" (PInt 0);
   issues_ ← py_get metrics_ "open_issues" (PInt 0);
   size_ ← py_get metrics_ "size" (PInt 0);
   language_ ← py_get metrics_ "language" PNone;
   branch_ ← py_get repo_details "default_branch" (PStr "main");
   topics_ ← py_get repo_details "topics" (PList []);
   license_ ← py_get repo_details "license" (PDict []);
   license_name ← py_get license_ "name" PNone;
   fork_ ← py_get repo_details "fork" (PBool false);
   archived_ ← py_get repo_details "archived" (PBool false);
   let record :=
     {| name := repo; full_name := repo_name; owner := owner_;
        description := description_; url := url_; homepage := homepage_;
        created_at := created_; updated_at := updated_;
        pushed_at := pushed_;
        metrics := {| stars := stars_; forks := forks_;
                      watchers := watchers_; open_issues := issues_;
                      size := size_; language := language_;
                      default_branch := branch_ |};
        topics := topics_; license := license_name; is_fork := fork_;
        archived := archived_ |} in
   if repository_valid schemas record then Ok record
   else Raise (ValidationError "GitHubRepository")).

Definition details_prompt (owner_ repo : string) : string :=
  "Get GitHub repository details for " +:+ owner_ +:+ "/" +:+ repo.

(** The body of the [try] of [_analyze_repository]; [Ok None] is one of
    its two [return None]. *)
Definition analyze_repository_try (w : World) (repo_name : string)
    (with_metrics : bool) : World * res (option GitHubRepository) :=
  if negb (Str.contains "/" repo_name) then (w, Ok None)
  else
    match Str.split_once "/"%char repo_name with
    | None => (w, Raise (Exception "ValueError" "not enough values to unpack"))
    | Some (owner_, repo) =>
        let '(w', run) := agent_run w (details_prompt owner_ repo) in
        (w',
         (details_result ← run;
          let repo_details := data details_result in
          if negb (truthy repo_details) then Ok None
          else
            (record ← repository_record repo_name owner_ repo repo_details;
             Ok (Some record))))
    end.

(** [except Exception: return None] *)
Definition _analyze_repository (w : World) (repo_name : string)
    (with_metrics : bool) : World * option GitHubRepository :=
  let '(w', r) := analyze_repository_try w repo_name with_metrics in
  (w', match r with Ok o => o | Raise _ => None end).

(** [_extract_content] *)
Definition _extract_content (agent_result_str : string) : string :=
  if Str.contains "AgentRunResult(output=" agent_result_str then
    let start := Str.py_find "output='" agent_result_str + 8 in
    if start >? 7 then
      let end_ := Str.py_rfind "')" agent_result_str in
      if end_ >? start
      then Str.replace "\'" "'" (Str.slice agent_result_str start end_)
      else agent_result_str
    else agent_result_str
  else agent_result_str.

(** The [for repo_name in ...] loop of [process_request], appending to
    [repo_data]. *)
Fixpoint analyze_each (w : World) (names : list string) (with_metrics : bool)
    (repo_data : list GitHubRepository) : World * list GitHubRepository :=
  match names with
  | [] => (w, repo_data)
  | repo_name :: rest =>
      let '(w', repo_analysis) := _analyze_repository w repo_name with_metrics in
      analyze_each w' rest with_metrics
        match repo_analysis with
        | Some r => repo_data ++ [r]
        | None => repo_data
        end
  end.

Definition analysis_prompt (repo_data : list GitHubRepository) : string :=
  nl +:+ "                Analyze the following GitHub repositories: "
     +:+ repr_repositories schemas repo_data +:+ nl
     +:+ "                Provide a comprehensive analysis of their health, community, and technology."
     +:+ nl +:+ "                ".

(** The body of the [try] of [process_request]. *)
Definition process_request_try (w : World) (request : RepoIntelRequest)
    : World * res RepoIntelResponse :=
  let '(w1, repo_data) :=
    analyze_each w (take 10 (repositories request))
      (include_metrics request) [] in
  match repo_data with
  | [] =>
      (w1, Ok {| resp_repositories := repo_data;
                 total_repos := Z.of_nat (length repo_data);
                 resp_analysis_timestamp := utcnow w1;
                 insights := Some "No repositories could be analyzed." |})
  | _ :: _ =>
      let '(w2, run) := agent_run w1 (analysis_prompt repo_data) in
      (w2,
       (analysis_result ← run;
        Ok {| resp_repositories := repo_data;
              total_repos := Z.of_nat (length repo_data);
              resp_analysis_timestamp := utcnow w2;
              insights := Some (_extract_content (result_str analysis_result)) |}))
  end.

(** [process_request]: the [try] and its [except Exception as e]. *)
Definition process_request (w : World) (request : RepoIntelRequest)
    : World * RepoIntelResponse :=
  let '(w', r) := process_request_try w request in
  match r with
  | Ok resp => (w', resp)
  | Raise e =>
      (w', {| resp_repositories := [];
              total_repos := 0;
              resp_analysis_timestamp := utcnow w';
              insights := Some ("An error occurred: " +:+ exn_str e) |})
  end.

End Specialist.

(** ** [.dict()] of the response models *)

Definition RepoMetrics_dict (m : RepoMetrics) : pydict :=
  [("stars", stars m); ("forks", forks m); ("watchers", watchers m);
   ("open_issues", open_issues m); ("size", size m);
   ("language", language m); ("default_branch", default_branch m)].

Definition GitHubRepository_dict (g : GitHubRepository) : pydict :=
  [("name", PStr (name g)); ("full_name", PStr (full_name g));
   ("owner", PStr (owner g)); ("description", description g);
   ("url", url g); ("homepage", homepage g);
   ("created_at", created_at g); ("updated_at", updated_at g);
   ("pushed_at", pushed_at g);
   ("metrics", PDict (RepoMetrics_dict (metrics g)));
   ("topics", topics g); ("license", license g);
   ("is_fork", is_fork g); ("archived", archived g)].

Definition str_or_none (o : option string) : pyval :=
  match o with Some s => PStr s | None => PNone end.

Definition RepoIntelResponse_dict (r : RepoIntelResponse) : pydict :=
  [("repositories",
    PList (map (fun g => PDict (GitHubRepository_dict g)) (resp_repositories r)));
   ("total_repos", PInt (total_repos r));
   ("analysis_timestamp", PDatetime (resp_analysis_timestamp r));
   ("insights", str_or_none (insights r))].

Definition TechTrendsResponse_dict (r : TechTrendsResponse) : pydict :=
  [("query", PStr (trends_query r));
   ("trends", PList (trends r));
   ("total_items", PInt (total_items r));
   ("sources", PList (map PStr (sources r)));
   ("analysis_timestamp", PDatetime (trends_analysis_timestamp r));
   ("summary", str_or_none (summary r))].

Definition GeneralChatResponse_dict (r : GeneralChatResponse) : pydict :=
  [("response", PStr (response r));
   ("timestamp", PDatetime (chat_timestamp r));
   ("message_type", PStr (message_type r))].

(** ** The other components the manager owns (sources missing) *)

(** EntryAgent (app/agents/entry_agent.py is not among the sources): an
    object with the four methods the manager calls. *)
Record EntryAgent : Type := {
  entry_process_request :
    World -> TechTrendsRequest -> World * res TechTrendsResponse;
  classify_query : World -> string -> World * res string;
  process_general_chat :
    World -> GeneralChatRequest -> World * res GeneralChatResponse;
  entry_health_check : World -> World * res pyval
}.

(** A2AService (app/services/a2a_service.py is not among the sources): the
    manager calls its probe. *)
Record A2AService : Type := {
  a2a_health_check : World -> World * res pyval
}.

(** ** Delegation (specialist_agent.py, agent_manager.py, routers/system.py) *)

Record AgentManager : Type := {
  entry_agent : option EntryAgent;
  specialist_agent : option SpecialistAgent;
  a2a_service : option A2AService;
  mcp_manager : option MCPClientManager;
  initialized : bool
}.

Record A2ASendRequest : Type := {
  sender : string;
  recipient : string;
  a2a_message_type : string;
  payload : pydict;
  correlation_id : option string
}.

Record A2ASendResponse : Type := {
  status : string;
  result : pydict;
  resp_correlation_id : option string
}.

Definition as_str (v : pyval) : option string :=
  match v with PStr s => Some s | _ => None end.

Definition NoneAttributeError (attr : string) : exn :=
  Exception "AttributeError"
    ("'NoneType' object has no attribute '" +:+ attr +:+ "'").

Section Delegation.

Variable schemas : Schemas.

(** Modelled from the spec: [RepoIntelRequest(repositories=v)], whose
    declaration is missing; "Repository request: {repositories:
    list<string>, include_metrics: bool}". A value that is not a list of
    strings is a validation error, and so is a list the declaration's own
    constraints refuse. *)
Definition RepoIntelRequest_new (v : pyval) : res RepoIntelRequest :=
  match v with
  | PList l =>
      match mapM as_str l with
      | Some names =>
          let request :=
            {| repositories := names;
               include_metrics := include_metrics_default schemas |} in
          if repo_request_valid schemas request then Ok request
          else Raise (ValidationError "RepoIntelRequest")
      | None => Raise (ValidationError "RepoIntelRequest")
      end
  | _ => Raise (ValidationError "RepoIntelRequest")
  end.

(** The request [handle_delegation_from_entry] builds from its argument. *)
Definition delegated_request (message : pyval) : res RepoIntelRequest :=
  payload_ ← py_get message "payload" (PDict []);
  repositories_ ← py_get payload_ "repositories" (PList []);
  RepoIntelRequest_new repositories_.

Definition handle_delegation_from_entry (w : World) (message : pyval)
    : World * res pydict :=
  match delegated_request message with
  | Raise e => (w, Raise e)
  | Ok request =>
      let '(w', result_) := process_request schemas w request in
      (w', Ok (RepoIntelResponse_dict result_))
  end.

(** [AgentManager.receive_a2a_message] *)
Definition receive_a2a_message (self : AgentManager) (w : World)
    (recipient_ message_type_ : string) (payload_ : pydict)
    : World * pydict :=
  if String.eqb recipient_ "specialist_agent"
     && bool_decide (is_Some (specialist_agent self))
  then
    let '(w', r) := handle_delegation_from_entry w (PDict payload_) in
    match r with
    | Ok d => (w', d)
    | Raise e => (w', [("error", PStr (exn_str e))])
    end
  else
    (w, [("error",
          PStr ("Unknown recipient or message type for " +:+ recipient_))]).

(** [a2a_send] of routers/system.py, given the manager it depends on. *)
Definition a2a_send (manager : AgentManager) (w : World)
    (request : A2ASendRequest) : World * A2ASendResponse :=
  let '(w', result_) :=
    receive_a2a_message manager w (recipient request)
      (a2a_message_type request) (payload request) in
  (w', {| status := if negb (dict_has result_ "error") then "ok" else "error";
          result := result_;
          resp_correlation_id := correlation_id request |}).

End Delegation.

(** ** AgentManager (app/services/agent_manager.py) *)

Definition not_initialized : exn :=
  Exception "RuntimeError" "Agent manager not initialized".

(** [get_agent_manager] of app/dependencies.py, on the process-wide
    manager. *)
Definition get_agent_manager (agent_manager : AgentManager) : res AgentManager :=
  if negb (initialized agent_manager)
  then Raise (Exception "HTTPException" "503: Agent manager not initialized")
  else Ok agent_manager.

(** What [health_check] collects. *)
Record HealthStatus : Type := {
  hs_initialized : bool;
  hs_agents : pydict;
  hs_mcp_servers : pyval;
  hs_a2a_service : pyval;
  hs_timestamp : Z
}.

(** [SpecialistAgent.health_check]; [PDatetime t] under "timestamp" stands
    for the text [t.isoformat()]. *)
Definition specialist_health_check (self : SpecialistAgent) (w : World)
    : World * res pyval :=
  let status_ := "healthy" in
  let details := "Agent " +:+ agent_name self +:+ " is operational" in
  let '(status_, details) :=
    match sa_mcp_manager self with
    | None => ("degraded", "MCP manager not initialized")
    | Some _ => (status_, details)
    end in
  (w, Ok (PDict [("status", PStr status_); ("details", PStr details);
                 ("timestamp", PDatetime (utcnow w))])).

Section Manager.

Variable schemas : Schemas.

Definition process_tech_trends_request (self : AgentManager) (w : World)
    (request : TechTrendsRequest) : World * res TechTrendsResponse :=
  if negb (initialized self) || negb (bool_decide (is_Some (entry_agent self)))
  then (w, Raise not_initialized)
  else
    match entry_agent self with
    | Some entry => entry_process_request entry w request
    | None => (w, Raise (NoneAttributeError "process_request"))
    end.

Definition TechTrendsRequest_new (query : string) (limit : Z)
    (hn brave : bool) : res TechTrendsRequest :=
  let request :=
    {| tt_query := query; tt_limit := limit;
       include_hn := hn; include_brave := brave |} in
  if trends_request_valid schemas request then Ok request
  else Raise (ValidationError "TechTrendsRequest").

Definition GeneralChatRequest_new (text : string) : res GeneralChatRequest :=
  let request := {| message := text |} in
  if chat_request_valid schemas request then Ok request
  else Raise (ValidationError "GeneralChatRequest").

Definition route_user_intent (self : AgentManager) (w : World)
    (input_text : string) (limit : Z) (hn brave : bool)
    : World * res pydict :=
  if negb (initialized self) || negb (bool_decide (is_Some (entry_agent self)))
  then (w, Raise not_initialized)
  else
    match entry_agent self with
    | None => (w, Raise (NoneAttributeError "classify_query"))
    | Some entry =>
        let '(w1, c) := classify_query entry w input_text in
        match c with
        | Raise e => (w1, Raise e)
        | Ok classification =>
            if String.eqb classification "TECH" then
              match TechTrendsRequest_new input_text limit hn brave with
              | Raise e => (w1, Raise e)
              | Ok trends_request =>
                  let '(w2, r) := entry_process_request entry w1 trends_request in
                  (w2, data_ ← r;
                       Ok [("route", PStr "trends");
                           ("data", PDict (TechTrendsResponse_dict data_))])
              end
            else
              match GeneralChatRequest_new input_text with
              | Raise e => (w1, Raise e)
              | Ok chat_request =>
                  let '(w2, r) := process_general_chat entry w1 chat_request in
                  (w2, data_ ← r;
                       Ok [("route", PStr "chat");
                           ("data", PDict (GeneralChatResponse_dict data_))])
              end
        end
    end.

Definition process_repo_intel_request (self : AgentManager) (w : World)
    (request : RepoIntelRequest) : World * res RepoIntelResponse :=
  if negb (initialized self)
     || negb (bool_decide (is_Some (specialist_agent self)))
  then (w, Raise not_initialized)
  else
    let '(w', r) := process_request schemas w request in (w', Ok r).

(** The dictionary given as [correlation_analysis]; the float [0.0] of
    "correlation_score" is written as the integer 0. *)
Definition empty_correlation : pydict :=
  [("trending_technologies", PList []);
   ("related_repositories", PList []);
   ("correlation_score", PInt 0);
   ("key_insights", PList [])].

(** [RepoIntelResponse(repositories=..., total_repos=...,
    analysis_timestamp=..., insights=...)] with the keyword [insights]
    given ([Some]) or left out ([None]). The class of models/responses.py
    declares [insights: str | None = Field(description=...)]: the field may
    hold [None] but has no default, so the model library requires it. *)
Definition RepoIntelResponse_new (repos : list GitHubRepository) (total : Z)
    (timestamp : Z) (insights_ : option (option string))
    : res RepoIntelResponse :=
  match insights_ with
  | Some given =>
      Ok {| resp_repositories := repos;
            total_repos := total;
            resp_analysis_timestamp := timestamp;
            insights := given |}
  | None => Raise (MissingField "RepoIntelResponse" "insights")
  end.

(** [RepoIntelResponse(repositories=[], total_repos=0,
    analysis_timestamp=datetime.utcnow())]: no [insights] is given. *)
Definition empty_repo_section (w : World) : res RepoIntelResponse :=
  RepoIntelResponse_new [] 0 (utcnow w) None.

Definition process_combined_analysis_request (self : AgentManager)
    (w : World) (request : CombinedAnalysisRequest)
    : World * res CombinedAnalysisResponse :=
  if negb (initialized self)
     || negb (bool_decide (is_Some (entry_agent self)))
     || negb (bool_decide (is_Some (specialist_agent self)))
  then (w, Raise not_initialized)
  else
    match entry_agent self with
    | None => (w, Raise (NoneAttributeError "process_request"))
    | Some entry =>
        match TechTrendsRequest_new (ca_query request) (trend_limit request)
                (include_hn_default schemas) (include_brave_default schemas) with
        | Raise e => (w, Raise e)
        | Ok trends_request =>
            let '(w1, tr) := entry_process_request entry w trends_request in
            match tr with
            | Raise e => (w1, Raise e)
            | Ok trends_response =>
                let repositories_to_analyze : list string := [] in
                let repositories_to_analyze :=
                  if auto_detect_repos request
                  then repositories_to_analyze
                  else repositories_to_analyze in
                match empty_repo_section w1 with
                | Raise e => (w1, Raise e)
                | Ok repo_intel_response =>
                    let '(w2, rr) :=
                      match repositories_to_analyze with
                      | [] => (w1, Ok repo_intel_response)
                      | _ :: _ =>
                          match RepoIntelRequest_new schemas
                                  (PList (map PStr repositories_to_analyze)) with
                          | Raise e => (w1, Raise e)
                          | Ok repo_request =>
                              let '(w', r) :=
                                process_request schemas w1 repo_request in
                              (w', Ok r)
                          end
                      end in
                    (w2,
                     repo_intel_response ← rr;
                     if trend_analysis_valid schemas empty_correlation then
                       Ok {| car_query := ca_query request;
                             car_trends := trends_response;
                             car_repositories := repo_intel_response;
                             correlation_analysis := empty_correlation;
                             recommendations := [];
                             car_analysis_timestamp := utcnow w2 |}
                     else Raise (ValidationError "CombinedAnalysisResponse"))
                end
            end
        end
    end.

(** One step of [health_check]: [if component: target = await probe]. *)
Definition probe_if_present {C} (component : option C)
    (probe : C -> World -> World * res pyval) (w : World)
    : World * res (option pyval) :=
  match component with
  | None => (w, Ok None)
  | Some c => let '(w', r) := probe c w in (w', v ← r; Ok (Some v))
  end.

Definition set_agent (key : string) (v : option pyval) (agents : pydict)
    : pydict :=
  match v with
  | Some h => agents ++ [(key, h)]
  | None => agents
  end.

Definition health_check (self : AgentManager) (w : World)
    : World * res HealthStatus :=
  let timestamp_ := utcnow w in
  let '(w1, r1) := probe_if_present (entry_agent self) entry_health_check w in
  match r1 with
  | Raise e => (w1, Raise e)
  | Ok h_entry =>
      let '(w2, r2) :=
        probe_if_present (specialist_agent self) specialist_health_check w1 in
      match r2 with
      | Raise e => (w2, Raise e)
      | Ok h_specialist =>
          let '(w3, r3) :=
            probe_if_present (mcp_manager self) health_check_all w2 in
          match r3 with
          | Raise e => (w3, Raise e)
          | Ok h_mcp =>
              let '(w4, r4) :=
                probe_if_present (a2a_service self) a2a_health_check w3 in
              match r4 with
              | Raise e => (w4, Raise e)
              | Ok h_a2a =>
                  (w4,
                   Ok {| hs_initialized := initialized self;
                         hs_agents :=
                           set_agent "specialist_agent" h_specialist
                             (set_agent "entry_agent" h_entry []);
                         hs_mcp_servers := default (PDict []) h_mcp;
                         hs_a2a_service := default (PDict []) h_a2a;
                         hs_timestamp := timestamp_ |})
              end
          end
      end
  end.

End Manager.

(** ** The registered tools (app/agents/factory.py) *)

(** [c.lower()] on the letters A to Z. *)
Definition lower_char (c : ascii) : ascii :=
  let n := nat_of_ascii c in
  if (65 <=? n)%nat && (n <=? 90)%nat then ascii_of_nat (n + 32) else c.

Fixpoint lower (s : string) : string :=
  match s with
  | EmptyString => EmptyString
  | String c s' => String (lower_char c) (lower s')
  end.

(** [type_map] of [get_hacker_news_stories] *)
Definition type_map : gmap string string :=
  <["top" := "topstories"]> (<["new" := "newstories"]>
    (<["best" := "beststories"]> ∅)).

Section Tools.

(** [int(os.getenv("BRAVE_WEB_SEARCH_LIMIT", "20"))] *)
Variable BRAVE_WEB_SEARCH_LIMIT : Z.

(** [self.mcp_manager] of the factory *)
Variable mcp : MCPClientManager.

Definition search_brave (w : World) (query freshness : string)
    : World * res pyval :=
  match get_client mcp "brave_search" with
  | None => (w, Ok (PDict [("error", PStr "Brave Search MCP client not available")]))
  | Some client =>
      let '(w', r) :=
        call_tool client w "brave_web_search"
          [("query", PStr query); ("freshness", PStr freshness);
           ("count", PInt BRAVE_WEB_SEARCH_LIMIT)] in
      match r with
      | Ok v => (w', Ok v)
      | Raise e =>
          (w', Ok (PDict [("error", PStr "mcp_connection_failed");
                          ("details", PStr (exn_str e))]))
      end
  end.

Definition get_hacker_news_stories (w : World) (story_type : string)
    (limit : Z) : World * res pyval :=
  match get_client mcp "hacker_news" with
  | None => (w, Ok (PDict [("error", PStr "Hacker News MCP client not available")]))
  | Some client =>
      let hn_story_type := default story_type (type_map !! lower story_type) in
      let '(w', r) :=
        call_tool client w "get_stories"
          [("story_type", PStr hn_story_type); ("limit", PInt limit)] in
      match r with
      | Ok v => (w', Ok v)
      | Raise e =>
          (w', Ok (PDict [("error", PStr "mcp_connection_failed");
                          ("details", PStr (exn_str e))]))
      end
  end.

Definition search_github_repos (w : World) (query sort : string)
    (limit : Z) : World * res pyval :=
  match get_client mcp "github" with
  | None => (w, Ok (PDict [("error", PStr "GitHub MCP client not available")]))
  | Some client =>
      let '(w', r) :=
        call_tool client w "search_repositories"
          [("query", PStr query); ("sort", PStr sort);
           ("per_page", PInt limit)] in
      match r with
      | Ok v => (w', Ok v)
      | Raise e => (w', Ok (PDict [("error", PStr (exn_str e))]))
      end
  end.

Definition get_github_repo_details (w : World) (owner_ repo : string)
    : World * res pyval :=
  match get_client mcp "github" with
  | None => (w, Ok (PDict [("error", PStr "GitHub MCP client not available")]))
  | Some client =>
      let '(w', r) :=
        call_tool client w "get_repository"
          [("owner", PStr owner_); ("repo", PStr repo)] in
      match r with
      | Ok v => (w', Ok v)
      | Raise e => (w', Ok (PDict [("error", PStr (exn_str e))]))
      end
  end.

End Tools.

(** ** Vocabulary of the properties, and concrete scenarios *)

(** The wrapper the agent library puts around an answer [t]. *)
Definition framed (t : string) : string :=
  "AgentRunResult(output='" +:+ t +:+ "')".

Definition unescape_quotes (t : string) : string := Str.replace "\'" "'" t.

(** [repo_name] passes the shape check of [_analyze_repository]. *)
Definition has_separator (repo_name : string) : bool :=
  Str.contains "/" repo_name.

(** The number of ['/'] in an identifier. *)
Fixpoint separators (s : string) : nat :=
  match s with
  | EmptyString => 0%nat
  | String c s' => ((if Ascii.eqb c "/" then 1 else 0) + separators s')%nat
  end.

(** The prompt that asks the model about one identifier. *)
Definition lookup_prompt (repo_name : string) : string :=
  "Get GitHub repository details for " +:+ repo_name.

(** The response of the [except] branch of [process_request]. *)
Definition fault_response (w : World) (e : exn) : RepoIntelResponse :=
  {| resp_repositories := [];
     total_repos := 0;
     resp_analysis_timestamp := utcnow w;
     insights := Some ("An error occurred: " +:+ exn_str e) |}.

(** Declarations that accept everything. *)
Definition permissive : Schemas :=
  {| repository_valid := λ _, true;
     include_metrics_default := true;
     include_hn_default := true;
     include_brave_default := true;
     repo_request_valid := λ _, true;
     trends_request_valid := λ _, true;
     chat_request_valid := λ _, true;
     trend_analysis_valid := λ _, true;
     repr_repositories := λ l, String.concat ", " (full_name <$> l) |}.

(** A model that knows every repository and summarises on request. *)
Definition helpful_world : World :=
  {| respond := λ _ _,
       Ok {| data := PDict [("description", PStr "a repository")];
             result_str := "AgentRunResult(output='All of them are healthy.')" |};
     prompts := [];
     clock := 1700000000 |}.

(** A model that knows every repository and fails when asked to summarise. *)
Definition no_summary_world : World :=
  {| respond := λ _ prompt,
       if Str.starts_with "Get GitHub repository details for " prompt
       then Ok {| data := PDict [("description", PStr "a repository")];
                  result_str := "AgentRunResult(output='found')" |}
       else Raise (Exception "RuntimeError" "model unavailable");
     prompts := [];
     clock := 1700000000 |}.

(** The capabilities the tools ask the registry for. *)
Inductive Capability : Type := BraveSearch | HackerNews | GitHub.

Definition registry_key (c : Capability) : string :=
  match c with
  | BraveSearch => "brave_search"
  | HackerNews => "hacker_news"
  | GitHub => "github"
  end.

Definition capability_label (c : Capability) : string :=
  match c with
  | BraveSearch => "Brave Search"
  | HackerNews => "Hacker News"
  | GitHub => "GitHub"
  end.

(** The error mapping that names capability [c] as unavailable. *)
Definition unavailable (c : Capability) : pyval :=
  PDict [("error", PStr (capability_label c +:+ " MCP client not available"))].

(** The payload of the delegation in the specification. *)
Definition delegation_payload : pydict :=
  [("repositories", PList [PStr "a/b"])].

(** The response of the manager to a recipient it does not know. *)
Definition unknown_recipient (request : A2ASendRequest) : A2ASendResponse :=
  {| status := "error";
     result :=
       [("error",
         PStr ("Unknown recipient or message type for " +:+ recipient request))];
     resp_correlation_id := correlation_id request |}.

(** The mapping [health_check] returns when the probes answered
    [h_entry], [h_specialist], [h_mcp] and [h_a2a] ([None] for a component
    the manager does not have). *)
Definition collected (self : AgentManager) (w : World)
    (h_entry h_specialist h_mcp h_a2a : option pyval) : HealthStatus :=
  {| hs_initialized := initialized self;
     hs_agents :=
       set_agent "specialist_agent" h_specialist
         (set_agent "entry_agent" h_entry []);
     hs_mcp_servers := default (PDict []) h_mcp;
     hs_a2a_service := default (PDict []) h_a2a;
     hs_timestamp := utcnow w |}.

Definition healthy : pyval := PDict [("status", PStr "healthy")].

Definition no_trends (query : string) (w : World) : TechTrendsResponse :=
  {| trends_query := query; trends := []; total_items := 0; sources := [];
     trends_analysis_timestamp := utcnow w;
     summary := Some "No trends found." |}.

(** An entry agent that asks the model once per call. *)
Definition demo_entry : EntryAgent :=
  {| entry_process_request := λ w request,
       let '(w', _) := agent_run w ("trends: " +:+ tt_query request) in
       (w', Ok (no_trends (tt_query request) w'));
     classify_query := λ w text,
       let '(w', _) := agent_run w ("classify: " +:+ text) in (w', Ok "TECH");
     process_general_chat := λ w request,
       let '(w', _) := agent_run w (message request) in
       (w', Ok {| response := "hello"; chat_timestamp := utcnow w';
                  message_type := "general" |});
     entry_health_check := λ w, (w, Ok healthy) |}.

Definition probe_fault : exn := Exception "ConnectionError" "probe timed out".

(** An entry agent whose probe faults. *)
Definition unreachable_entry : EntryAgent :=
  {| entry_process_request := entry_process_request demo_entry;
     classify_query := classify_query demo_entry;
     process_general_chat := process_general_chat demo_entry;
     entry_health_check := λ w, (w, Raise probe_fault) |}.

(** A registry with no capability connected. *)
Definition empty_registry : MCPClientManager :=
  {| clients := ∅; health_check_all := λ w, (w, Ok (PDict [])) |}.

Definition demo_specialist : SpecialistAgent :=
  {| sa_mcp_manager := Some empty_registry; agent_name := "specialist_agent" |}.

Definition demo_a2a : A2AService :=
  {| a2a_health_check := λ w, (w, Ok healthy) |}.

Definition ready_manager : AgentManager :=
  {| entry_agent := Some demo_entry;
     specialist_agent := Some demo_specialist;
     a2a_service := Some demo_a2a;
     mcp_manager := Some empty_registry;
     initialized := true |}.

(** The manager after [shutdown]: every component is still there. *)
Definition stopped_manager : AgentManager :=
  {| entry_agent := Some demo_entry;
     specialist_agent := Some demo_specialist;
     a2a_service := Some demo_a2a;
     mcp_manager := Some empty_registry;
     initialized := false |}.

Definition degraded_manager : AgentManager :=
  {| entry_agent := Some unreachable_entry;
     specialist_agent := Some demo_specialist;
     a2a_service := Some demo_a2a;
     mcp_manager := Some empty_registry;
     initialized := true |}.

Definition delegation (to : string) : A2ASendRequest :=
  {| sender := "entry_agent"; recipient := to;
     a2a_message_type := "repo_analysis";
     payload := delegation_payload; correlation_id := Some "c-1" |}.

Definition demo_combined : CombinedAnalysisRequest :=
  {| ca_query := "rust"; trend_limit := 5; auto_detect_repos := true |}.

(** ** Vocabulary for the repository records *)

(** The value of [d] under [k], or [dflt]. *)
Definition get_or (d : pydict) (k : string) (dflt : pyval) : pyval :=
  default dflt (dict_lookup d k).

(** The dictionary that [d] holds under [k]: empty when [k] is absent,
    none when the value under [k] is not a dictionary. *)
Definition sub_dict (d : pydict) (k : string) : option pydict :=
  match dict_lookup d k with
  | None => Some []
  | Some (PDict m) => Some m
  | Some _ => None
  end.

(** The record made of the details [d] of [repo_name], whose metrics are
    [m] and whose license entry is [lic]. *)
Definition repository_of (repo_name owner_ repo : string) (d m lic : pydict)
    : GitHubRepository :=
  {| name := repo; full_name := repo_name; owner := owner_;
     description := get_or d "description" (PStr "");
     url := get_or d "html_url" (PStr ("https://github.com/" +:+ repo_name));
     homepage := get_or d "homepage" PNone;
     created_at := get_or d "created_at" PNone;
     updated_at := get_or d "updated_at" PNone;
     pushed_at := get_or d "pushed_at" PNone;
     metrics := {| stars := get_or m "stars" (PInt 0);
                   forks := get_or m "forks" (PInt 0);
                   watchers := get_or m "watchers" (PInt 0);
                   open_issues := get_or m "open_issues" (PInt 0);
                   size := get_or m "size" (PInt 0);
                   language := get_or m "language" PNone;
                   default_branch := get_or d "default_branch" (PStr "main") |};
     topics := get_or d "topics" (PList []);
     license := get_or lic "name" PNone;
     is_fork := get_or d "fork" (PBool false);
     archived := get_or d "archived" (PBool false) |}.

(** The details [d] make a record: they are a non-empty dictionary whose
    "metrics" and "license" entries, when present, are dictionaries. *)
Definition usable_details (v : pyval) : option (pydict * pydict * pydict) :=
  match v with
  | PDict (kv :: d) =>
      match sub_dict (kv :: d) "metrics", sub_dict (kv :: d) "license" with
      | Some m, Some lic => Some (kv :: d, m, lic)
      | _, _ => None
      end
  | _ => None
  end.

(** The response when nothing could be analysed. *)
Definition nothing_analysed (w : World) : RepoIntelResponse :=
  {| resp_repositories := [];
     total_repos := 0;
     resp_analysis_timestamp := utcnow w;
     insights := Some "No repositories could be analyzed." |}.

(** A model that answers every lookup with details that name no license
    (the hosting platform gives [null] for a repository without one). *)
Definition unlicensed_world : World :=
  {| respond := λ _ _,
       Ok {| data := PDict [("description", PStr "a repository");
                            ("license", PNone)];
             result_str := "AgentRunResult(output='found')" |};
     prompts := [];
     clock := 1700000000 |}.

(** A model that answers in plain text, as an agent without an output
    type does. *)
Definition plain_text_world : World :=
  {| respond := λ _ _,
       Ok {| data := PStr "tiangolo/fastapi is a web framework";
             result_str := "AgentRunResult(output='tiangolo/fastapi is a web framework')" |};
     prompts := [];
     clock := 1700000000 |}.

(** Every lookup and every summary is answered, with usable details. *)
Definition always_resolves (w : World) : Prop :=
  ∀ history prompt,
    ∃ run, respond w history prompt = Ok run
           ∧ is_Some (usable_details (data run)).

(** ** The routes (app/routers) *)

(** What a route hands to the framework: the response model, or the
    [HTTPException] it raises. *)
Inductive http (A : Type) : Type :=
  | Respond (a : A)
  | HTTPException (status_code : Z) (detail : string).
Arguments Respond {A} a.
Arguments HTTPException {A} status_code detail.

(** An [HTTPException] caught as an [Exception] inside a route; its
    [str(e)] is "<status_code>: <detail>". *)
Definition http_exn (status_code : Z) (detail : string) : exn :=
  Exception "HTTPException" (pretty status_code +:+ ": " +:+ detail).

(** [except Exception as e: raise HTTPException(status_code=..., detail=str(e))] *)
Definition or_http {A} (status_code : Z) (r : res A) : http A :=
  match r with
  | Ok a => Respond a
  | Raise e => HTTPException status_code (exn_str e)
  end.

(** [manager: AgentManager = Depends(get_agent_manager)]: the route runs on
    the manager the dependency returns; the [HTTPException] of the
    dependency is the answer otherwise. *)
Definition depends_on_manager {A} (agent_manager : AgentManager) (w : World)
    (route : AgentManager -> World -> World * http A) : World * http A :=
  match get_agent_manager agent_manager with
  | Ok manager => route manager w
  | Raise _ => (w, HTTPException 503 "Agent manager not initialized")
  end.

(** The fields of [AssistantRouteRequest] (models/requests.py) that
    [assistant_router] reads. *)
Record AssistantRouteRequest : Type := {
  ar_input : string;
  ar_limit : option Z;
  ar_include_hn : bool;
  ar_include_brave : bool
}.

Record AssistantRouteResponse : Type := {
  arr_route : pyval;
  arr_data : pyval;
  arr_timestamp : Z
}.

Record HealthResponse : Type := {
  hr_status : string;
  hr_timestamp : Z;
  hr_version : string;
  hr_mcp_servers : pyval;
  hr_agents_status : list (string * pyval)
}.

Definition KeyError (k : string) : exn := Exception "KeyError" ("'" +:+ k +:+ "'").

(** [d[k]] *)
Definition dict_item (d : pydict) (k : string) : res pyval :=
  match dict_lookup d k with
  | Some v => Ok v
  | None => Raise (KeyError k)
  end.

(** [v.values()]: only a dictionary has the method. *)
Definition py_values (v : pyval) : res (list pyval) :=
  match v with
  | PDict d => Ok (snd <$> d)
  | _ => Raise (Exception "AttributeError"
                  (type_name v +:+ " object has no attribute 'values'"))
  end.

(** [limit or 10] *)
Definition limit_or_10 (limit : option Z) : Z :=
  match limit with
  | None => 10
  | Some n => if n =? 0 then 10 else n
  end.

Section Routes.

Variable schemas : Schemas.

(** [settings.app_version] *)
Variable app_version : string.

(** does [HealthResponse(...)] validate: its declaration wants
    [dict[str, bool]] and [dict[str, str]] *)
Variable health_response_valid : HealthResponse -> bool.

(** routers/analysis.py *)
Definition analyze_tech_trends (manager : AgentManager) (w : World)
    (request : TechTrendsRequest) : World * http TechTrendsResponse :=
  let '(w', r) := process_tech_trends_request manager w request in
  (w', or_http 500 r).

Definition analyze_repositories (manager : AgentManager) (w : World)
    (request : RepoIntelRequest) : World * http RepoIntelResponse :=
  let '(w', r) := process_repo_intel_request schemas manager w request in
  (w', or_http 500 r).

Definition combined_analysis (manager : AgentManager) (w : World)
    (request : CombinedAnalysisRequest) : World * http CombinedAnalysisResponse :=
  let '(w', r) := process_combined_analysis_request schemas manager w request in
  (w', or_http 500 r).

(** routers/chat.py *)
Definition general_chat (manager : AgentManager) (w : World)
    (request : GeneralChatRequest) : World * http GeneralChatResponse :=
  let '(w', r) :=
    match entry_agent manager with
    | None => (w, Raise (http_exn 503 "Entry agent not available"))
    | Some entry => process_general_chat entry w request
    end in
  (w', or_http 500 r).

Definition assistant_router (manager : AgentManager) (w : World)
    (request : AssistantRouteRequest) : World * http AssistantRouteResponse :=
  let '(w', r) :=
    route_user_intent schemas manager w (ar_input request)
      (limit_or_10 (ar_limit request))
      (ar_include_hn request) (ar_include_brave request) in
  (w',
   or_http 500
     (routed ← r;
      route_ ← dict_item routed "route";
      data_ ← dict_item routed "data";
      Ok {| arr_route := route_; arr_data := data_;
            arr_timestamp := utcnow w' |})).

(** [health_check] of routers/system.py: what it makes of the mapping the
    manager returns. *)
Definition health_response (w : World) (health_data : HealthStatus)
    : res HealthResponse :=
  let overall_status := "healthy" in
  let overall_status :=
    if negb (hs_initialized health_data) then "degraded" else overall_status in
  let mcp_servers := hs_mcp_servers health_data in
  values ← py_values mcp_servers;
  let overall_status :=
    if negb (forallb truthy values) then "degraded" else overall_status in
  agents_status ←
    mapM (λ item, status_ ← py_get item.2 "status" (PStr "unknown");
                  Ok (item.1, status_))
      (hs_agents health_data);
  let response_ :=
    {| hr_status := overall_status;
       hr_timestamp := utcnow w;
       hr_version := app_version;
       hr_mcp_servers := mcp_servers;
       hr_agents_status := agents_status |} in
  if health_response_valid response_ then Ok response_
  else Raise (ValidationError "HealthResponse").

Definition health_route (manager : AgentManager) (w : World)
    : World * http HealthResponse :=
  let '(w', r) := health_check manager w in
  (w', or_http 503 (health_data ← r; health_response w' health_data)).

End Routes.

(** ** The lifecycle of the manager (agent_manager.py) *)

(** A step of [initialize]: it may change the world and the manager, and
    may raise. *)
Definition Init (A : Type) : Type :=
  World * AgentManager -> (World * AgentManager) * res A.

#[global] Instance init_mret : MRet Init := λ A a s, (s, Ok a).
#[global] Instance init_mbind : MBind Init := λ A B k m s,
  let '(s', r) := m s in
  match r with
  | Ok a => k a s'
  | Raise e => (s', Raise e)
  end.

(** An awaited call to the outside. *)
Definition call {A} (f : World -> World * res A) : Init A :=
  λ s, let '(w', r) := f s.1 in ((w', s.2), r).

(** An assignment to a field of [self]. *)
Definition assign (update : AgentManager -> AgentManager) : Init unit :=
  λ s, ((s.1, update s.2), Ok tt).

Definition set_mcp_manager (m : MCPClientManager) (self : AgentManager)
    : AgentManager :=
  {| entry_agent := entry_agent self;
     specialist_agent := specialist_agent self;
     a2a_service := a2a_service self;
     mcp_manager := Some m;
     initialized := initialized self |}.

Definition set_entry_agent (e : EntryAgent) (self : AgentManager)
    : AgentManager :=
  {| entry_agent := Some e;
     specialist_agent := specialist_agent self;
     a2a_service := a2a_service self;
     mcp_manager := mcp_manager self;
     initialized := initialized self |}.

Definition set_specialist_agent (sa : SpecialistAgent) (self : AgentManager)
    : AgentManager :=
  {| entry_agent := entry_agent self;
     specialist_agent := Some sa;
     a2a_service := a2a_service self;
     mcp_manager := mcp_manager self;
     initialized := initialized self |}.

Definition set_a2a_service (a : A2AService) (self : AgentManager)
    : AgentManager :=
  {| entry_agent := entry_agent self;
     specialist_agent := specialist_agent self;
     a2a_service := Some a;
     mcp_manager := mcp_manager self;
     initialized := initialized self |}.

Definition set_initialized (b : bool) (self : AgentManager) : AgentManager :=
  {| entry_agent := entry_agent self;
     specialist_agent := specialist_agent self;
     a2a_service := a2a_service self;
     mcp_manager := mcp_manager self;
     initialized := b |}.

(** [AgentManager()] *)
Definition new_manager : AgentManager :=
  {| entry_agent := None; specialist_agent := None; a2a_service := None;
     mcp_manager := None; initialized := false |}.

(** [SpecialistAgent(agent, mcp_manager)] *)
Definition new_specialist_agent (m : MCPClientManager) : SpecialistAgent :=
  {| sa_mcp_manager := Some m; agent_name := "specialist_agent" |}.

(** What [initialize] and [shutdown] call and the sources do not contain. *)
Record Services (Agent : Type) : Type := {
  (** [MCPClientManager()] *)
  new_mcp_manager : World -> World * res MCPClientManager;
  (** [await mcp_manager.__aenter__()] *)
  aenter : MCPClientManager -> World -> World * res unit;
  (** [await mcp_manager.__aexit__(None, None, None)] *)
  aexit : MCPClientManager -> World -> World * res unit;
  (** [AgentFactory(mcp_manager)] *)
  new_factory : MCPClientManager -> World -> World * res unit;
  (** [agent_factory.create_agent(system_prompt)] *)
  create_agent : MCPClientManager -> string -> World -> World * res Agent;
  (** [EntryAgent(agent, mcp_manager)] *)
  new_entry_agent : Agent -> MCPClientManager -> World -> World * res EntryAgent;
  (** [A2AService()] *)
  new_a2a_service : World -> World * res A2AService;
  (** [await a2a_service.start_server()] *)
  start_server : A2AService -> World -> World * res unit;
  (** [await a2a_service.stop_server()] *)
  stop_server : A2AService -> World -> World * res unit;
  (** [await a2a_service.register_agent(name, agent)] *)
  register_agent : A2AService -> string -> Agent -> World -> World * res unit
}.
Arguments new_mcp_manager {Agent} _.
Arguments aenter {Agent} _.
Arguments aexit {Agent} _.
Arguments new_factory {Agent} _.
Arguments create_agent {Agent} _.
Arguments new_entry_agent {Agent} _.
Arguments new_a2a_service {Agent} _.
Arguments start_server {Agent} _.
Arguments stop_server {Agent} _.
Arguments register_agent {Agent} _.

Section Lifecycle.

Context {Agent : Type}.
Variable services : Services Agent.

(** [initialize]; its [except] logs and raises again. The service object
    is taken to be truthy, so [if self.a2a_service:] is passed. *)
Definition initialize : Init unit :=
  m ← call (new_mcp_manager services);
  assign (set_mcp_manager m);;
  call (aenter services m);;
  call (new_factory services m);;
  entry_pydantic_agent ←
    call (create_agent services m "You are a tech trend analysis expert.");
  entry ← call (new_entry_agent services entry_pydantic_agent m);
  assign (set_entry_agent entry);;
  specialist_pydantic_agent ←
    call (create_agent services m
            "You are a GitHub repository analysis expert.");
  assign (set_specialist_agent (new_specialist_agent m));;
  a ← call (new_a2a_service services);
  assign (set_a2a_service a);;
  call (start_server services a);;
  call (register_agent services a "entry_agent" entry_pydantic_agent);;
  call (register_agent services a "specialist_agent" specialist_pydantic_agent);;
  assign (set_initialized true).

(** The body of the [try] of [shutdown]. *)
Definition shutdown_try : Init unit :=
  λ s,
    ((match a2a_service s.2 with
      | Some a => call (stop_server services a)
      | None => mret tt
      end);;
     (match mcp_manager s.2 with
      | Some m => call (aexit services m)
      | None => mret tt
      end);;
     assign (set_initialized false)) s.

(** [shutdown]: a fault is logged and dropped. *)
Definition shutdown (s : World * AgentManager) : World * AgentManager :=
  (shutdown_try s).1.

End Lifecycle.

(** ** Vocabulary for delegation and the tools *)

(** A message as [handle_delegation_from_entry] reads it: the identifiers
    under "repositories" of the dictionary under "payload". *)
Definition wrapped (names : list string) : pydict :=
  [("payload", PDict [("repositories", PList (PStr <$> names))])].



(** A client that answers every operation with its name and arguments. *)
Definition echo_client : Client :=
  {| call_tool := λ w operation args,
       (w, Ok (PDict (("operation", PStr operation) :: args))) |}.

(** A client whose every call faults. *)
Definition broken_client : Client :=
  {| call_tool := λ w _ _, (w, Raise (Exception "TimeoutError" "timed out")) |}.

Definition news_registry : MCPClientManager :=
  {| clients := <["hacker_news" := echo_client]> (<["github" := broken_client]> ∅);
     health_check_all := λ w,
       (w, Ok (PDict [("hacker_news", PBool true); ("github", PBool false)])) |}.

(** ** Concrete services *)

(** Services that all answer. *)
Definition demo_services : Services unit :=
  {| new_mcp_manager := λ w, (w, Ok empty_registry);
     aenter := λ _ w, (w, Ok tt);
     aexit := λ _ w, (w, Ok tt);
     new_factory := λ _ w, (w, Ok tt);
     create_agent := λ _ _ w, (w, Ok tt);
     new_entry_agent := λ _ _ w, (w, Ok demo_entry);
     new_a2a_service := λ w, (w, Ok demo_a2a);
     start_server := λ _ w, (w, Ok tt);
     stop_server := λ _ w, (w, Ok tt);
     register_agent := λ _ _ _ w, (w, Ok tt) |}.

(** Services whose model cannot be built (no API key, say). *)
Definition keyless_services : Services unit :=
  {| new_mcp_manager := new_mcp_manager demo_services;
     aenter := aenter demo_services;
     aexit := aexit demo_services;
     new_factory := new_factory demo_services;
     create_agent := λ _ _ w,
       (w, Raise (Exception "OpenAIError" "The api_key client option must be set"));
     new_entry_agent := new_entry_agent demo_services;
     new_a2a_service := new_a2a_service demo_services;
     start_server := start_server demo_services;
     stop_server := stop_server demo_services;
     register_agent := register_agent demo_services |}.

(** Services whose A2A server does not stop. *)
Definition stuck_services : Services unit :=
  {| new_mcp_manager := new_mcp_manager demo_services;
     aenter := aenter demo_services;
     aexit := aexit demo_services;
     new_factory := new_factory demo_services;
     create_agent := create_agent demo_services;
     new_entry_agent := new_entry_agent demo_services;
     new_a2a_service := new_a2a_service demo_services;
     start_server := start_server demo_services;
     stop_server := λ _ w, (w, Raise (Exception "RuntimeError" "server busy"));
     register_agent := register_agent demo_services |}.

(** ** Concrete managers for the routes *)

(** An entry agent whose classifier answers in lower case. *)
Definition chatty_entry : EntryAgent :=
  {| entry_process_request := entry_process_request demo_entry;
     classify_query := λ w text,
       let '(w', _) := agent_run w ("classify: " +:+ text) in (w', Ok "tech");
     process_general_chat := process_general_chat demo_entry;
     entry_health_check := entry_health_check demo_entry |}.

Definition chat_manager : AgentManager :=
  {| entry_agent := Some chatty_entry;
     specialist_agent := Some demo_specialist;
     a2a_service := Some demo_a2a;
     mcp_manager := Some empty_registry;
     initialized := true |}.

(** A ready manager whose registry reports one capability as down. *)
Definition news_manager : AgentManager :=
  {| entry_agent := Some demo_entry;
     specialist_agent := Some demo_specialist;
     a2a_service := Some demo_a2a;
     mcp_manager := Some news_registry;
     initialized := true |}.

(** A manager on which [initialize] stopped before the agents were made. *)
Definition half_manager : AgentManager :=
  {| entry_agent := None;
     specialist_agent := None;
     a2a_service := None;
     mcp_manager := Some empty_registry;
     initialized := true |}.

(** ** Vocabulary for the text extraction *)

(** Where the answer lies inside [s]: from just after the first "output='"
    to the last "')", when [s] has the marker and the two come in that
    order with something between them. *)
Definition wrapper_bounds (s : string) : option (nat * nat) :=
  if Str.contains "AgentRunResult(output=" s then
    match Str.find "output='" s, Str.rfind "')" s with
    | Some i, Some j => if (i + 8 <? j)%nat then Some (i + 8, j)%nat else None
    | _, _ => None
    end
  else None.

(** The wrapper around [t] written with double quotes. *)
Definition double_quoted (t : string) : string :=
  "AgentRunResult(output=" +:+ String "034"%char t
    +:+ String "034"%char ")".

(** * Properties *)

(** ** The string functions on examples *)

Example find_ex : Str.py_find "output='" "AgentRunResult(output='x')" = 15.
Proof. reflexivity. Qed.
Example rfind_ex : Str.py_rfind "')" "f('a')b')" = 7.
Proof. reflexivity. Qed.
Example find_none_ex : Str.py_find "zz" "abc" = -1.
Proof. reflexivity. Qed.
Example slice_ex : Str.slice "hello world" 2 (-3) = "llo wo".
Proof. reflexivity. Qed.
Example replace_ex : Str.replace "\'" "'" "it\'s \\'x" = "it's \'x".
Proof. reflexivity. Qed.
Example split_ex : Str.split_once "/" "a/b/c" = Some ("a", "b/c").
Proof. reflexivity. Qed.
Example lower_ex : lower "ToP" = "top".
Proof. reflexivity. Qed.
Example type_map_ex : type_map !! lower "Best" = Some "beststories".
Proof. reflexivity. Qed.

(** ** Text extraction *)

Section ExtractContent.

Lemma length_append (a b : string) :
  String.length (a +:+ b) = (String.length a + String.length b)%nat.
Proof. induction a as [|c a IH]; simpl; [done | by rewrite IH]. Qed.

Lemma rfind_closing (x : string) :
  Str.rfind "')" (x +:+ "')") = Some (String.length x).
Proof.
  induction x as [|c x IH]; [reflexivity|].
  change (String c x +:+ "')") with (String c (x +:+ "')")).
  cbn [Str.rfind String.length]. by rewrite IH.
Qed.

Lemma substring_prefix (t q : string) :
  String.substring 0 (String.length t) (t +:+ q) = t.
Proof.
  induction t as [|c t IH]; simpl; [by destruct q | by rewrite IH].
Qed.

Lemma substring_skip (p t q : string) :
  String.substring (String.length p) (String.length t) (p +:+ t +:+ q) = t.
Proof.
  induction p as [|c p IH]; [exact (substring_prefix t q) | exact IH].
Qed.

Lemma find_opening (t : string) :
  Str.py_find "output='" (framed t) = 15.
Proof. reflexivity. Qed.

Lemma contains_marker (t : string) :
  Str.contains "AgentRunResult(output=" (framed t) = true.
Proof. reflexivity. Qed.

Lemma rfind_framed (t : string) :
  Str.py_rfind "')" (framed t) = 23 + Z.of_nat (String.length t).
Proof.
  unfold Str.py_rfind.
  change (framed t) with (("AgentRunResult(output='" +:+ t) +:+ "')").
  rewrite rfind_closing, length_append. simpl. lia.
Qed.

Lemma slice_framed (t : string) :
  Str.slice (framed t) 23 (23 + Z.of_nat (String.length t)) = t.
Proof.
  unfold Str.slice, Str.clamp, framed.
  rewrite !length_append. cbn [String.length].
  repeat match goal with
         | |- context [?a <? ?b] => destruct (Z.ltb_spec a b); try lia
         end.
  rewrite Z.min_l, Z.min_l by lia.
  replace (Z.to_nat 23) with (String.length "AgentRunResult(output='")
    by reflexivity.
  replace (Z.to_nat (23 + Z.of_nat (String.length t) - 23))
    with (String.length t) by lia.
  apply substring_skip.
Qed.

Lemma extract_content_framed (t : string) :
  t ≠ "" → _extract_content (framed t) = unescape_quotes t.
Proof.
  intros Ht. unfold _extract_content.
  rewrite contains_marker, find_opening, rfind_framed.
  assert (0 < String.length t)%nat by (destruct t; simpl; [done | lia]).
  change (15 + 8 >? 7) with true. cbv iota.
  destruct (Z.gtb_spec (23 + Z.of_nat (String.length t)) (15 + 8)); [|lia].
  change (15 + 8) with 23. by rewrite slice_framed.
Qed.

Lemma extract_content_no_marker (s : string) :
  Str.contains "AgentRunResult(output=" s = false → _extract_content s = s.
Proof. intros H. unfold _extract_content. by rewrite H. Qed.

End ExtractContent.

(** ** The repository pipeline *)

Section SpecialistFacts.

Variable schemas : Schemas.

Lemma contains_cons (c : ascii) (s : string) :
  Str.contains "/" (String c s) = Ascii.eqb c "/" || Str.contains "/" s.
Proof.
  unfold Str.contains. cbn [Str.find Str.starts_with].
  rewrite Ascii.eqb_sym, andb_true_r.
  destruct (Ascii.eqb c "/"); [done|].
  cbn. by destruct (Str.find "/" s).
Qed.

Lemma split_once_joins (s : string) :
  Str.contains "/" s = true →
  ∃ o r, Str.split_once "/" s = Some (o, r) ∧ o +:+ "/" +:+ r = s.
Proof.
  induction s as [|c s IH]; [done|].
  rewrite contains_cons. cbn [Str.split_once].
  destruct (Ascii.eqb_spec c "/") as [->|Hc].
  - intros _. by exists "", s.
  - cbn [orb]. intros Hs. destruct (IH Hs) as (o & r & -> & Hj).
    exists (String c o), r. split; [done|].
    change (String c (o +:+ "/" +:+ r) = String c s). by rewrite Hj.
Qed.

Lemma details_prompt_joined (o r : string) :
  details_prompt o r = lookup_prompt (o +:+ "/" +:+ r).
Proof. reflexivity. Qed.

(** One identifier without a separator: nothing is asked, nothing is
    returned. *)
Lemma analyze_no_separator (w : World) (repo_name : string) (m : bool) :
  has_separator repo_name = false →
  _analyze_repository schemas w repo_name m = (w, None).
Proof.
  unfold has_separator, _analyze_repository, analyze_repository_try.
  by intros ->.
Qed.

(** One identifier with a separator: the model is asked about it, once. *)
Lemma analyze_with_separator (w : World) (repo_name : string) (m : bool) :
  has_separator repo_name = true →
  fst (_analyze_repository schemas w repo_name m)
  = fst (agent_run w (lookup_prompt repo_name)).
Proof.
  unfold has_separator, _analyze_repository, analyze_repository_try.
  intros H. rewrite H. cbn [negb].
  destruct (split_once_joins _ H) as (o & r & -> & <-).
  reflexivity.
Qed.

(** A record that comes back carries the identifier it was asked for. *)
Lemma analyze_some (w w' : World) (repo_name : string) (m : bool)
    (g : GitHubRepository) :
  _analyze_repository schemas w repo_name m = (w', Some g) →
  full_name g = repo_name ∧ has_separator repo_name = true.
Proof.
  unfold has_separator, _analyze_repository, analyze_repository_try.
  destruct (Str.contains "/" repo_name); cbn [negb]; [|by intros [= _ ?]].
  destruct (Str.split_once "/" repo_name) as [[o r]|]; [|by intros [= _ ?]].
  cbn. destruct (respond w (prompts w) (details_prompt o r)) as [run|e];
    cbn; [|by intros [= _ ?]].
  destruct (truthy (data run)); cbn; [|by intros [= _ ?]].
  unfold repository_record.
  repeat match goal with
         | |- context [py_get ?v ?k ?d] =>
             destruct (py_get v k d); cbn; [|by intros [= _ ?]]
         end.
  match goal with
  | |- context [repository_valid schemas ?r] =>
      destruct (repository_valid schemas r); cbn; [|by intros [= _ ?]]
  end.
  by intros [= _ <-].
Qed.

Lemma prompts_agent_run (w : World) (p : string) :
  prompts (fst (agent_run w p)) = prompts w ++ [p].
Proof. reflexivity. Qed.

(** The loop only ever extends the list it was given. *)
Lemma analyze_each_acc (names : list string) :
  ∀ (w : World) (m : bool) (acc : list GitHubRepository),
    analyze_each schemas w names m acc
    = (fst (analyze_each schemas w names m []),
       acc ++ snd (analyze_each schemas w names m [])).
Proof.
  induction names as [|n names IH]; intros w m acc; cbn [analyze_each].
  - by rewrite app_nil_r.
  - destruct (_analyze_repository schemas w n m) as [w' [g|]].
    + rewrite (IH w' m (acc ++ [g])), (IH w' m ([] ++ [g])).
      cbn [fst snd]. by rewrite <- app_assoc.
    + by rewrite (IH w' m acc).
Qed.

(** The records come from identifiers of the list, in the list's order. *)
Lemma analyze_each_sublist (names : list string) :
  ∀ (w : World) (m : bool),
    full_name <$> snd (analyze_each schemas w names m [])
    `sublist_of` filter (λ n, has_separator n = true) names.
Proof.
  induction names as [|n names IH]; intros w m; cbn [analyze_each].
  - constructor.
  - destruct (_analyze_repository schemas w n m) as [w' [g|]] eqn:E.
    + apply analyze_some in E as [Hn Hs].
      rewrite analyze_each_acc. cbn [snd app fmap list_fmap].
      rewrite filter_cons_True by done. rewrite Hn.
      apply sublist_skip, IH.
    + rewrite filter_cons. case_decide; [apply sublist_cons|]; apply IH.
Qed.

(** The model is asked about exactly the identifiers with a separator, in
    the list's order. *)
Lemma analyze_each_prompts (names : list string) :
  ∀ (w : World) (m : bool) (acc : list GitHubRepository),
    prompts (fst (analyze_each schemas w names m acc))
    = prompts w
      ++ (lookup_prompt <$> filter (λ n, has_separator n = true) names).
Proof.
  induction names as [|n names IH]; intros w m acc; cbn [analyze_each].
  - by rewrite app_nil_r.
  - destruct (has_separator n) eqn:Hs.
    + pose proof (analyze_with_separator w n m Hs) as Hw.
      destruct (_analyze_repository schemas w n m) as [w' o].
      cbn [fst] in Hw. rewrite IH, Hw, prompts_agent_run.
      rewrite filter_cons_True by done. cbn. by rewrite <- app_assoc.
    + rewrite (analyze_no_separator w n m Hs), IH.
      rewrite filter_cons_False; [done | congruence].
Qed.

(** An identifier without a separator leaves the rest of the batch as it
    would be without it. *)
Lemma analyze_each_drop (before after : list string) (n : string) :
  has_separator n = false →
  ∀ (w : World) (m : bool) (acc : list GitHubRepository),
    analyze_each schemas w (before ++ n :: after) m acc
    = analyze_each schemas w (before ++ after) m acc.
Proof.
  intros Hs. induction before as [|b before IH]; intros w m acc.
  - cbn [app analyze_each]. by rewrite (analyze_no_separator w n m Hs).
  - cbn [app analyze_each].
    destruct (_analyze_repository schemas w b m) as [w' o]. apply IH.
Qed.

End SpecialistFacts.

Section ProcessRequest.

Variable schemas : Schemas.

(** The [try] of [process_request] faults exactly when records were found
    and the model faults on the request to summarise them. *)
Lemma process_request_try_raises (w w' : World) (request : RepoIntelRequest)
    (e : exn) :
  process_request_try schemas w request = (w', Raise e) ↔
  ∃ w1 g gs,
    analyze_each schemas w (take 10 (repositories request))
      (include_metrics request) [] = (w1, g :: gs)
    ∧ agent_run w1 (analysis_prompt schemas (g :: gs)) = (w', Raise e).
Proof.
  unfold process_request_try.
  destruct (analyze_each _ _ _ _ _) as [w1 [|g gs]].
  - split; [done | by intros (? & ? & ? & [= _ ?] & _)].
  - destruct (agent_run w1 _) as [w2 [run|e']] eqn:E; cbn.
    + split; [done|]. intros (? & ? & ? & [= <- <- <-] & ?). congruence.
    + split.
      * intros [= <- <-]. by exists w1, g, gs.
      * intros (? & ? & ? & [= <- <- <-] & ?). congruence.
Qed.

(** The records of a response carry identifiers among the first 10 of
    the request that have a separator, in their order. *)
Lemma response_identifiers (w : World) (request : RepoIntelRequest) :
  full_name <$> resp_repositories (snd (process_request schemas w request))
  `sublist_of`
    filter (λ n, has_separator n = true) (take 10 (repositories request)).
Proof.
  unfold process_request, process_request_try.
  pose proof (analyze_each_sublist schemas
                (take 10 (repositories request)) w
                (include_metrics request)) as Hsub.
  destruct (analyze_each _ _ _ _ _) as [w1 [|g gs]]; cbn [snd] in *.
  - apply sublist_nil_l.
  - destruct (agent_run w1 _) as [w2 [run|e]]; cbn.
    + exact Hsub.
    + apply sublist_nil_l.
Qed.

Lemma response_count (w : World) (request : RepoIntelRequest) :
  total_repos (snd (process_request schemas w request))
  = Z.of_nat (length (resp_repositories (snd (process_request schemas w request)))).
Proof.
  unfold process_request, process_request_try.
  destruct (analyze_each _ _ _ _ _) as [w1 [|g gs]]; [done|].
  destruct (agent_run w1 _) as [w2 [run|e]]; done.
Qed.

(** C1. Of a request's identifiers only the first 10 are considered, in
    their order: the request is processed exactly as the request cut to
    its first 10 identifiers is, the records returned carry identifiers of
    those 10 in their order, and the model is asked about those of the 10
    that have a separator, in their order, and then at most once more (for
    the summary). This holds for a list of any length, so for one of more
    than 10 entries. *)
Theorem process_request_first_10 (w : World) (request : RepoIntelRequest) :
  let first10 := take 10 (repositories request) in
  process_request schemas w request
  = process_request schemas w
      {| repositories := first10;
         include_metrics := include_metrics request |}
  ∧ full_name <$> resp_repositories (snd (process_request schemas w request))
    `sublist_of` first10
  ∧ ∃ rest,
      prompts (fst (process_request schemas w request))
      = prompts w
        ++ (lookup_prompt <$> filter (λ n, has_separator n = true) first10)
        ++ rest
      ∧ (length rest ≤ 1)%nat.
Proof.
  cbn zeta. split; [|split].
  - unfold process_request, process_request_try.
    cbn [repositories include_metrics]. by rewrite take_idemp.
  - etrans; [apply response_identifiers | apply sublist_filter].
  - unfold process_request, process_request_try.
    pose proof (analyze_each_prompts schemas
                  (take 10 (repositories request)) w
                  (include_metrics request) []) as Hp.
    destruct (analyze_each _ _ _ _ _) as [w1 [|g gs]]; cbn [fst] in *.
    + exists []. rewrite app_nil_r. split; [done | cbn; lia].
    + exists [analysis_prompt schemas (g :: gs)].
      split; [|done].
      destruct (respond w1 (prompts w1) (analysis_prompt schemas (g :: gs)))
        as [run|e] eqn:E; unfold agent_run; rewrite E; cbn;
        by rewrite Hp, <- app_assoc.
Qed.

(** C10. Whatever [process_request] returns, after a clean run or after a
    fault, [total_repos] is the length of [repositories]. *)
Theorem total_repos_is_length (w : World) (request : RepoIntelRequest) :
  total_repos (snd (process_request schemas w request))
  = Z.of_nat (length (resp_repositories (snd (process_request schemas w request)))).
Proof. apply response_count. Qed.

(** C8. When the [try] of [process_request] faults with [e],
    [process_request] still returns a response: its [insights] is the
    note "An error occurred: " followed by the text of [e],
    [repositories] is empty and [total_repos] is 0. *)
Theorem process_request_fault (w w' : World) (request : RepoIntelRequest)
    (e : exn) :
  process_request_try schemas w request = (w', Raise e) →
  process_request schemas w request = (w', fault_response w' e)
  ∧ insights (fault_response w' e)
    = Some ("An error occurred: " +:+ exn_str e)
  ∧ resp_repositories (fault_response w' e) = []
  ∧ total_repos (fault_response w' e) = 0.
Proof. unfold process_request. by intros ->. Qed.

End ProcessRequest.

(** *** The repository pipeline on concrete requests *)

(** Fifteen identifiers: the ten first ones are analysed, in order. *)
Example fifteen_identifiers :
  let request :=
    {| repositories :=
         ["o/r01"; "o/r02"; "o/r03"; "o/r04"; "o/r05"; "o/r06"; "o/r07";
          "o/r08"; "o/r09"; "o/r10"; "o/r11"; "o/r12"; "o/r13"; "o/r14";
          "o/r15"];
       include_metrics := true |} in
  full_name <$> resp_repositories (snd (process_request permissive helpful_world request))
  = ["o/r01"; "o/r02"; "o/r03"; "o/r04"; "o/r05"; "o/r06"; "o/r07";
     "o/r08"; "o/r09"; "o/r10"]
  ∧ total_repos (snd (process_request permissive helpful_world request)) = 10
  ∧ insights (snd (process_request permissive helpful_world request))
    = Some "All of them are healthy.".
Proof. vm_compute. done. Qed.

(** C2, as stated, fails: "a/b/c" has two separators, and is analysed as
    repository "b/c" of owner "a". *)
Lemma two_separators_accepted :
  separators "a/b/c" ≠ 1%nat
  ∧ ∃ g, snd (_analyze_repository permissive helpful_world "a/b/c" true) = Some g
         ∧ owner g = "a" ∧ name g = "b/c" ∧ full_name g = "a/b/c".
Proof. split; [by vm_compute|]. eexists. by vm_compute. Qed.

Lemma process_request_fault_witness :
  let request := {| repositories := ["a/b"]; include_metrics := true |} in
  let e := Exception "RuntimeError" "model unavailable" in
  let w' := fst (process_request_try permissive no_summary_world request) in
  process_request permissive no_summary_world request = (w', fault_response w' e)
  ∧ insights (fault_response w' e) = Some "An error occurred: model unavailable".
Proof.
  cbn zeta.
  destruct (process_request_fault permissive no_summary_world
              (fst (process_request_try permissive no_summary_world
                      {| repositories := ["a/b"]; include_metrics := true |}))
              {| repositories := ["a/b"]; include_metrics := true |}
              (Exception "RuntimeError" "model unavailable") eq_refl)
    as (H & Hi & _).
  split; [exact H | exact Hi].
Defined.

(** ** Text extraction: the claim *)

(** C9, as stated, fails: around an empty answer the wrapper is returned
    as it is, not the (empty) enclosed text. *)
Lemma extract_content_empty_answer :
  framed "" = "AgentRunResult(output='')"
  ∧ _extract_content (framed "") = framed ""
  ∧ _extract_content (framed "") ≠ unescape_quotes "".
Proof. by vm_compute. Qed.

(** C9 (amended). A string without the marker "AgentRunResult(output=" is
    returned unchanged; [_extract_content] is a total function of its
    argument; around a non-empty answer, the wrapper
    "AgentRunResult(output='...')" is removed and every backslash-quote of
    the answer becomes a quote. *)
Theorem extract_content_spec :
  (∀ s, Str.contains "AgentRunResult(output=" s = false →
        _extract_content s = s)
  ∧ (∀ t, t ≠ "" → _extract_content (framed t) = unescape_quotes t).
Proof.
  split; [apply extract_content_no_marker | apply extract_content_framed].
Qed.

Lemma extract_content_spec_witness :
  _extract_content "No wrapper here" = "No wrapper here"
  ∧ _extract_content "AgentRunResult(output='it\'s fine')" = "it's fine".
Proof.
  destruct extract_content_spec as [Hplain Hframed].
  split; [by apply Hplain | by apply (Hframed "it\'s fine")].
Defined.

(** ** Delegation *)

Section DelegationFacts.

Variable schemas : Schemas.

Lemma receive_unknown_recipient (self : AgentManager) (w : World)
    (to type_ : string) (payload_ : pydict) :
  to ≠ "specialist_agent" ∨ specialist_agent self = None →
  receive_a2a_message schemas self w to type_ payload_
  = (w, [("error", PStr ("Unknown recipient or message type for " +:+ to))]).
Proof.
  unfold receive_a2a_message. intros [Hto | Hnone].
  - destruct (String.eqb_spec to "specialist_agent"); [done | reflexivity].
  - rewrite Hnone, bool_decide_eq_false_2, andb_false_r; [done|].
    by intros [? ?].
Qed.

(** The handler looks for the identifiers under a "payload" key of what it
    is given; the manager gives it the payload itself. With the payload
    of the specification no identifier is read. *)
Lemma delegation_payload_read :
  delegated_request schemas (PDict delegation_payload)
  = RepoIntelRequest_new schemas (PList []).
Proof. reflexivity. Qed.

End DelegationFacts.

(** ** The tools *)

Section ToolFacts.

Variable limit : Z.
Variable mcp : MCPClientManager.

Lemma unavailable_names_capability (c c' : Capability) :
  unavailable c = unavailable c' → c = c'.
Proof. by destruct c, c'. Qed.

(** Whatever the registry holds and whatever a client does, a tool returns
    a value. *)
Lemma tools_return (w : World) (a b : string) (n : Z) :
  is_ok (snd (search_brave limit mcp w a b)) = true
  ∧ is_ok (snd (get_hacker_news_stories mcp w a n)) = true
  ∧ is_ok (snd (search_github_repos mcp w a b n)) = true
  ∧ is_ok (snd (get_github_repo_details mcp w a b)) = true.
Proof.
  unfold search_brave, get_hacker_news_stories, search_github_repos,
    get_github_repo_details.
  repeat split;
    match goal with
    | |- context [get_client mcp ?k] => destruct (get_client mcp k) as [c|]
    end; try done;
    match goal with
    | |- context [call_tool ?c ?w ?op ?args] =>
        by destruct (call_tool c w op args) as [? [?|?]]
    end.
Qed.

(** C4. When the registry has no client under the name a tool asks for,
    the tool returns, without raising and without touching the world, the
    mapping whose "error" names that capability; the mappings of different
    capabilities differ. *)
Theorem tool_without_client (c : Capability) (w : World) :
  get_client mcp (registry_key c) = None →
  match c with
  | BraveSearch =>
      ∀ query freshness,
        search_brave limit mcp w query freshness = (w, Ok (unavailable c))
  | HackerNews =>
      ∀ story_type n,
        get_hacker_news_stories mcp w story_type n = (w, Ok (unavailable c))
  | GitHub =>
      (∀ query sort n,
         search_github_repos mcp w query sort n = (w, Ok (unavailable c)))
      ∧ (∀ owner_ repo,
           get_github_repo_details mcp w owner_ repo = (w, Ok (unavailable c)))
  end
  ∧ (∃ text, unavailable c = PDict [("error", PStr text)])
  ∧ ∀ c', unavailable c = unavailable c' → c = c'.
Proof.
  intros Hnone. split; [|split].
  - destruct c; cbn [registry_key] in Hnone;
      unfold search_brave, get_hacker_news_stories, search_github_repos,
        get_github_repo_details; rewrite Hnone; try split; done.
  - by eexists.
  - apply unavailable_names_capability.
Qed.

End ToolFacts.

Lemma tool_without_client_witness :
  search_brave 20 empty_registry helpful_world "rust" "pm"
  = (helpful_world,
     Ok (PDict [("error", PStr "Brave Search MCP client not available")]))
  ∧ get_hacker_news_stories empty_registry helpful_world "top" 10
    = (helpful_world,
       Ok (PDict [("error", PStr "Hacker News MCP client not available")]))
  ∧ get_github_repo_details empty_registry helpful_world "a" "b"
    = (helpful_world,
       Ok (PDict [("error", PStr "GitHub MCP client not available")])).
Proof.
  destruct (tool_without_client 20 empty_registry BraveSearch helpful_world
              eq_refl) as [Hb _].
  destruct (tool_without_client 20 empty_registry HackerNews helpful_world
              eq_refl) as [Hh _].
  destruct (tool_without_client 20 empty_registry GitHub helpful_world
              eq_refl) as [[_ Hg] _].
  split; [apply Hb | split; [apply Hh | apply Hg]].
Defined.

(** ** The manager *)

Section ManagerFacts.

Variable schemas : Schemas.

(** C5. While [initialized] is false, each of the four request-level
    operations raises "Agent manager not initialized" and leaves the
    world as it was: no method of an agent is called and the model is not
    asked; the dependency of the routes refuses the manager as well. *)
Theorem uninitialized_fails_fast (self : AgentManager) (w : World) :
  initialized self = false →
  (∀ request,
     process_tech_trends_request self w request = (w, Raise not_initialized))
  ∧ (∀ text limit hn brave,
       route_user_intent schemas self w text limit hn brave
       = (w, Raise not_initialized))
  ∧ (∀ request,
       process_repo_intel_request schemas self w request
       = (w, Raise not_initialized))
  ∧ (∀ request,
       process_combined_analysis_request schemas self w request
       = (w, Raise not_initialized))
  ∧ exn_str not_initialized = "Agent manager not initialized"
  ∧ is_ok (get_agent_manager self) = false.
Proof.
  intros H.
  unfold process_tech_trends_request, route_user_intent,
    process_repo_intel_request, process_combined_analysis_request,
    get_agent_manager.
  rewrite H. by cbn.
Qed.

(** The probe of the specialist agent answers and leaves the world. *)
Lemma specialist_probe_answers (sa : SpecialistAgent) (w : World) :
  ∃ h, specialist_health_check sa w = (w, Ok h).
Proof.
  unfold specialist_health_check.
  destruct (sa_mcp_manager sa); by eexists.
Qed.

(** C6 (amended). When every probe of a component the manager has
    returns, [health_check] returns one mapping that holds each answer
    under its component. A fault raised by a probe is not contained:
    [health_check] raises it, returns no mapping, and the probes that come
    after it are not run. *)
Theorem health_check_collects (self : AgentManager) (w : World) :
  (∀ w1 w2 w3 w4 h_entry h_specialist h_mcp h_a2a,
     probe_if_present (entry_agent self) entry_health_check w
     = (w1, Ok h_entry) →
     probe_if_present (specialist_agent self) specialist_health_check w1
     = (w2, Ok h_specialist) →
     probe_if_present (mcp_manager self) health_check_all w2
     = (w3, Ok h_mcp) →
     probe_if_present (a2a_service self) a2a_health_check w3
     = (w4, Ok h_a2a) →
     health_check self w
     = (w4, Ok (collected self w h_entry h_specialist h_mcp h_a2a)))
  ∧ (∀ w1 e,
       probe_if_present (entry_agent self) entry_health_check w
       = (w1, Raise e) →
       health_check self w = (w1, Raise e))
  ∧ (∀ w1 w2 w3 h_entry h_specialist e,
       probe_if_present (entry_agent self) entry_health_check w
       = (w1, Ok h_entry) →
       probe_if_present (specialist_agent self) specialist_health_check w1
       = (w2, Ok h_specialist) →
       probe_if_present (mcp_manager self) health_check_all w2
       = (w3, Raise e) →
       health_check self w = (w3, Raise e))
  ∧ (∀ w1 w2 w3 w4 h_entry h_specialist h_mcp e,
       probe_if_present (entry_agent self) entry_health_check w
       = (w1, Ok h_entry) →
       probe_if_present (specialist_agent self) specialist_health_check w1
       = (w2, Ok h_specialist) →
       probe_if_present (mcp_manager self) health_check_all w2
       = (w3, Ok h_mcp) →
       probe_if_present (a2a_service self) a2a_health_check w3
       = (w4, Raise e) →
       health_check self w = (w4, Raise e)).
Proof.
  unfold health_check. repeat split; intros; by simplify_eq/=;
    repeat match goal with H : _ = _ |- _ => rewrite H end.
Qed.

(** C7 (defect of the code). On a ready manager whose trend pipeline
    answers, [process_combined_analysis_request] does not return the trend
    output with an empty repository section: once the trend pipeline has
    run, building the empty section without [insights] raises a validation
    error, for every request, whether or not auto-detection is asked for.
    The world is the one the trend pipeline left: the repository pipeline
    is not run. *)
Theorem combined_analysis_raises (self : AgentManager) (w w1 : World)
    (request : CombinedAnalysisRequest) (entry : EntryAgent)
    (trends_request : TechTrendsRequest)
    (trends_response : TechTrendsResponse) :
  initialized self = true →
  entry_agent self = Some entry →
  is_Some (specialist_agent self) →
  TechTrendsRequest_new schemas (ca_query request) (trend_limit request)
    (include_hn_default schemas) (include_brave_default schemas)
  = Ok trends_request →
  entry_process_request entry w trends_request = (w1, Ok trends_response) →
  process_combined_analysis_request schemas self w request
  = (w1, Raise (MissingField "RepoIntelResponse" "insights")).
Proof.
  intros Hi He Hs Hreq Htrends.
  unfold process_combined_analysis_request, empty_repo_section,
    RepoIntelResponse_new.
  rewrite Hi, He, Hreq, Htrends.
  rewrite !bool_decide_eq_true_2 by done. cbn.
  by destruct (auto_detect_repos request).
Qed.

End ManagerFacts.

(** *** The manager on concrete scenarios *)

Lemma uninitialized_fails_fast_witness :
  process_tech_trends_request stopped_manager helpful_world
    {| tt_query := "rust"; tt_limit := 5; include_hn := true;
       include_brave := true |}
  = (helpful_world, Raise not_initialized)
  ∧ route_user_intent permissive stopped_manager helpful_world "rust" 10 true true
    = (helpful_world, Raise not_initialized)
  ∧ process_repo_intel_request permissive stopped_manager helpful_world
      {| repositories := ["a/b"]; include_metrics := true |}
    = (helpful_world, Raise not_initialized)
  ∧ process_combined_analysis_request permissive stopped_manager helpful_world
      demo_combined
    = (helpful_world, Raise not_initialized).
Proof.
  destruct (uninitialized_fails_fast permissive stopped_manager helpful_world
              eq_refl) as (H1 & H2 & H3 & H4 & _).
  split; [apply H1 | split; [apply H2 | split; [apply H3 | apply H4]]].
Defined.

(** The same operations on the ready manager do reach the agents. *)
Example ready_manager_routes :
  prompts (fst (route_user_intent permissive ready_manager helpful_world
                  "rust" 10 true true))
  = ["classify: rust"; "trends: rust"].
Proof. reflexivity. Qed.

(** C6, as stated, fails: the probe of the entry agent faults, and
    [health_check] returns no mapping at all, although the specialist
    agent is there and its probe answers. *)
Lemma probe_fault_aborts_health_check :
  health_check degraded_manager helpful_world = (helpful_world, Raise probe_fault)
  ∧ specialist_agent degraded_manager = Some demo_specialist
  ∧ is_ok (snd (specialist_health_check demo_specialist helpful_world)) = true.
Proof. by vm_compute. Qed.

Lemma health_check_collects_witness :
  health_check ready_manager helpful_world
  = (helpful_world,
     Ok {| hs_initialized := true;
           hs_agents :=
             [("entry_agent", healthy);
              ("specialist_agent",
               PDict [("status", PStr "healthy");
                      ("details", PStr "Agent specialist_agent is operational");
                      ("timestamp", PDatetime 1700000000)])];
           hs_mcp_servers := PDict [];
           hs_a2a_service := healthy;
           hs_timestamp := 1700000000 |})
  ∧ health_check degraded_manager helpful_world
    = (helpful_world, Raise probe_fault).
Proof.
  destruct (health_check_collects ready_manager helpful_world) as [Hall _].
  destruct (health_check_collects degraded_manager helpful_world)
    as (_ & Hfirst & _).
  split.
  - exact (Hall helpful_world helpful_world helpful_world helpful_world
             _ _ _ _ eq_refl eq_refl eq_refl eq_refl).
  - exact (Hfirst helpful_world probe_fault eq_refl).
Defined.

Lemma combined_analysis_raises_witness :
  process_combined_analysis_request permissive ready_manager helpful_world
    demo_combined
  = ((agent_run helpful_world "trends: rust").1,
     Raise (MissingField "RepoIntelResponse" "insights"))
  ∧ prompts (agent_run helpful_world "trends: rust").1 = ["trends: rust"].
Proof.
  split; [|reflexivity].
  apply (combined_analysis_raises permissive ready_manager helpful_world
           (agent_run helpful_world "trends: rust").1
           demo_combined demo_entry
           {| tt_query := "rust"; tt_limit := 5; include_hn := true;
              include_brave := true |}
           (no_trends "rust" (agent_run helpful_world "trends: rust").1));
    try reflexivity.
  by eexists.
Defined.

(** The same construction with [insights] given, as [process_request]
    does, is accepted. *)
Example repo_section_with_insights :
  RepoIntelResponse_new [] 0 1700000000 (Some None)
  = Ok {| resp_repositories := []; total_repos := 0;
          resp_analysis_timestamp := 1700000000; insights := None |}.
Proof. reflexivity. Qed.

(** * Further properties of the code *)

(** ** One repository *)

Section AnalyzeRepository.

Variable schemas : Schemas.

Lemma has_separator_split (n : string) :
  has_separator n = true ↔ ∃ o r, Str.split_once "/" n = Some (o, r).
Proof.
  split.
  - intros H. destruct (split_once_joins n H) as (o & r & Hs & _). eauto.
  - intros (o & r & H). unfold has_separator.
    revert o r H. induction n as [|c n IH]; [done|].
    intros o r. rewrite contains_cons. cbn [Str.split_once].
    destruct (Ascii.eqb c "/"); [done|].
    destruct (Str.split_once "/" n) as [[a b]|]; [|done].
    intros _. by apply (IH a b).
Qed.

(** The text before the first separator has none. *)
Lemma split_once_owner (n o r : string) :
  Str.split_once "/" n = Some (o, r) →
  has_separator o = false ∧ o +:+ "/" +:+ r = n.
Proof.
  revert o r. induction n as [|c n IH]; [done|].
  intros o r. cbn [Str.split_once].
  destruct (Ascii.eqb_spec c "/") as [->|Hc].
  - by intros [= <- <-].
  - destruct (Str.split_once "/" n) as [[a b]|]; [|done].
    intros [= <- <-]. destruct (IH a b eq_refl) as [Ha Hj].
    split.
    + unfold has_separator in *. rewrite contains_cons, Ha.
      by destruct (Ascii.eqb_spec c "/").
    + change (String c (a +:+ "/" +:+ b) = String c n). by rewrite Hj.
Qed.

(** A lookup in the dictionary held under a key. *)
Lemma py_get_nested (d : pydict) (k k' : string) (dflt v : pyval) :
  py_get (default (PDict []) (dict_lookup d k)) k' dflt = Ok v ↔
  ∃ m, sub_dict d k = Some m ∧ v = get_or m k' dflt.
Proof.
  unfold sub_dict, get_or.
  destruct (dict_lookup d k) as [[]|]; cbn; split;
    try (intros [= <-]; by eexists);
    try (by intros (? & [= <-] & ->));
    try done; by intros (? & ? & _).
Qed.

(** What [repository_record] makes of details [v]. *)
Lemma sub_dict_default (d : pydict) (k : string) :
  sub_dict d k
  = match default (PDict []) (dict_lookup d k) with
    | PDict m => Some m
    | _ => None
    end.
Proof. unfold sub_dict. by destruct (dict_lookup d k) as [[]|]. Qed.

(** What [repository_record] makes of details [v]. *)
Lemma repository_record_spec (n o r : string) (v : pyval)
    (g : GitHubRepository) :
  truthy v = true →
  repository_record schemas n o r v = Ok g ↔
  ∃ d m lic,
    usable_details v = Some (d, m, lic)
    ∧ g = repository_of n o r d m lic
    ∧ repository_valid schemas g = true.
Proof.
  intros Hv. unfold repository_record, usable_details.
  destruct v as [| | | | |l|d]; try (split; [done | by intros (?&?&?&?&_)]).
  destruct d as [|kv d]; [done|]. clear Hv.
  rewrite !sub_dict_default.
  set (dd := kv :: d).
  cbn [py_get mbind res_mbind res_bind].
  generalize (default (PDict []) (dict_lookup dd "metrics")) as vm.
  generalize (default (PDict []) (dict_lookup dd "license")) as vl.
  intros vl vm.
  destruct vm as [| | | | | |m];
    try (split; [done | by intros (?&?&?&?&_)]).
  destruct vl as [| | | | | |lic];
    try (split; [done | by intros (?&?&?&?&_)]).
  cbn [py_get mbind res_mbind res_bind].
  change (default ?x (dict_lookup ?d ?k)) with (get_or d k x).
  match goal with
  | |- context [repository_valid schemas ?x] =>
      change x with (repository_of n o r dd m lic)
  end.
  split.
  - destruct (repository_valid schemas _) eqn:E; [|done].
    intros [= <-]. by exists dd, m, lic.
  - intros (? & ? & ? & [= <- <- <-] & -> & Hok). by rewrite Hok.
Qed.

(** When [_analyze_repository] returns a record. *)
Lemma analyze_some_iff (w : World) (n : string) (wm : bool)
    (g : GitHubRepository) :
  snd (_analyze_repository schemas w n wm) = Some g ↔
  ∃ o r run d m lic,
    Str.split_once "/" n = Some (o, r)
    ∧ respond w (prompts w) (lookup_prompt n) = Ok run
    ∧ usable_details (data run) = Some (d, m, lic)
    ∧ g = repository_of n o r d m lic
    ∧ repository_valid schemas g = true.
Proof.
  unfold _analyze_repository, analyze_repository_try.
  destruct (Str.contains "/" n) eqn:Hc; cbn [negb].
  - destruct (split_once_joins n Hc) as (o & r & Hs & Hj).
    rewrite Hs. cbn [agent_run]. rewrite details_prompt_joined, Hj.
    destruct (respond w (prompts w) (lookup_prompt n)) as [run|e];
      cbn [snd mbind res_mbind res_bind].
    + destruct (truthy (data run)) eqn:Ht; cbn [negb].
      * pose proof (repository_record_spec n o r (data run)) as Hspec.
        destruct (repository_record schemas n o r (data run)) as [g'|e];
          cbn [mbind res_mbind res_bind].
        -- split.
           ++ intros [= <-]. destruct (proj1 (Hspec g' Ht) eq_refl)
                as (d & m & lic & ? & ? & ?).
              by exists o, r, run, d, m, lic.
           ++ intros (o' & r' & run' & d & m & lic & [= <- <-] & [= <-] & H1 & H2 & H3).
              assert (Ok g' = Ok g) as [= ->]; [|done].
              apply (Hspec g Ht). by exists d, m, lic.
        -- split; [done|].
           intros (o' & r' & run' & d & m & lic & [= <- <-] & [= <-] & H1 & H2 & H3).
           assert (@Raise GitHubRepository e = Ok g) as [=].
           apply (Hspec g Ht). by exists d, m, lic.
      * split; [done|].
        intros (o' & r' & run' & d & m & lic & _ & [= <-] & H1 & _).
        unfold usable_details in H1.
        by destruct (data run) as [| | | | |?|[|??]].
    + split; [done | by intros (?&?&?&?&?&?&_&?&_)].
  - split; [done|]. intros (o & r & ? & ? & ? & ? & Hs & _).
    assert (has_separator n = true) by (apply has_separator_split; eauto).
    unfold has_separator in *. congruence.
Qed.

(** X1. [_analyze_repository] returns a record exactly when the identifier
    has a separator, the model answers the lookup, the [.data] of the
    answer is a non-empty dictionary whose "metrics" and "license"
    entries, if any, are dictionaries, and the declaration accepts the
    record; the record holds each value under its key, or the default the
    source names for it. *)
Theorem analyze_repository_some (w : World) (n : string) (wm : bool)
    (g : GitHubRepository) :
  snd (_analyze_repository schemas w n wm) = Some g ↔
  ∃ o r run d m lic,
    Str.split_once "/" n = Some (o, r)
    ∧ respond w (prompts w) (lookup_prompt n) = Ok run
    ∧ usable_details (data run) = Some (d, m, lic)
    ∧ g = repository_of n o r d m lic
    ∧ repository_valid schemas g = true.
Proof. apply analyze_some_iff. Qed.

(** An identifier whose lookup gives nothing usable is dropped, after the
    model has been asked once. *)
Lemma analyze_dropped (w : World) (n : string) (wm : bool) :
  has_separator n = true →
  (∀ run, respond w (prompts w) (lookup_prompt n) = Ok run →
          usable_details (data run) = None) →
  _analyze_repository schemas w n wm
  = (fst (agent_run w (lookup_prompt n)), None).
Proof.
  intros Hs Hbad.
  pose proof (analyze_with_separator schemas w n wm Hs) as Hw.
  destruct (_analyze_repository schemas w n wm) as [w' [g|]] eqn:E;
    cbn [fst] in Hw; [|by rewrite Hw].
  assert (snd (_analyze_repository schemas w n wm) = Some g) as Hg
    by (by rewrite E).
  apply analyze_some_iff in Hg
    as (o & r & run & d & m & lic & _ & Hrun & Hd & _).
  rewrite (Hbad run Hrun) in Hd. done.
Qed.

(** X2. Per-item fault containment: when the identifier has a separator
    and the model faults on the lookup, or answers with a [.data] that is
    empty, is not a dictionary, or holds a "metrics" or "license" entry
    that is not a dictionary (a license of [None], say), no record is
    returned, nothing is raised, and the model has been asked exactly
    once. *)
Theorem analyze_repository_drops (w : World) (n : string) (wm : bool) :
  has_separator n = true →
  (∀ run, respond w (prompts w) (lookup_prompt n) = Ok run →
          usable_details (data run) = None) →
  _analyze_repository schemas w n wm
  = (fst (agent_run w (lookup_prompt n)), None)
  ∧ prompts (fst (_analyze_repository schemas w n wm))
    = prompts w ++ [lookup_prompt n].
Proof.
  intros Hs Hbad. rewrite (analyze_dropped w n wm Hs Hbad). done.
Qed.

(** A record's owner is the text before the first separator of its
    identifier and its name the text after it. *)
Lemma analyze_some_parts (w : World) (n : string) (wm : bool)
    (g : GitHubRepository) :
  snd (_analyze_repository schemas w n wm) = Some g →
  has_separator (owner g) = false
  ∧ owner g +:+ "/" +:+ name g = full_name g
  ∧ full_name g = n
  ∧ repository_valid schemas g = true.
Proof.
  intros (o & r & run & d & m & lic & Hs & _ & _ & -> & Hok)%analyze_some_iff.
  destruct (split_once_owner n o r Hs) as [Ho Hj]. by cbn.
Qed.

Lemma analyze_each_Forall (P : GitHubRepository → Prop) :
  (∀ w n m g, snd (_analyze_repository schemas w n m) = Some g → P g) →
  ∀ names w m acc,
    Forall P acc → Forall P (snd (analyze_each schemas w names m acc)).
Proof.
  intros HP names. induction names as [|n names IH]; intros w m acc Hacc;
    cbn [analyze_each]; [done|].
  pose proof (HP w n m) as Hn.
  destruct (_analyze_repository schemas w n m) as [w' [g|]]; cbn [snd] in Hn.
  - apply IH, Forall_app. split; [done|]. constructor; [by apply Hn | done].
  - by apply IH.
Qed.

(** The records of a response are those the loop found, or none. *)
Lemma response_records (w : World) (request : RepoIntelRequest) :
  let found :=
    snd (analyze_each schemas w (take 10 (repositories request))
           (include_metrics request) []) in
  resp_repositories (snd (process_request schemas w request)) = found
  ∨ resp_repositories (snd (process_request schemas w request)) = [].
Proof.
  cbn zeta. unfold process_request, process_request_try.
  destruct (analyze_each _ _ _ _ _) as [w1 [|g gs]]; [by left|].
  destruct (agent_run w1 _) as [w2 [run|e]]; cbn; [by left | by right].
Qed.

(** X3. Every record of a response was split at the first separator of
    its identifier: the owner has no separator, owner, "/" and name give
    the identifier back, and the declaration accepted the record. *)
Theorem response_records_split (w : World) (request : RepoIntelRequest) :
  Forall (λ g, has_separator (owner g) = false
               ∧ owner g +:+ "/" +:+ name g = full_name g
               ∧ repository_valid schemas g = true)
    (resp_repositories (snd (process_request schemas w request))).
Proof.
  destruct (response_records w request) as [-> | ->]; [|constructor].
  apply analyze_each_Forall; [|constructor].
  intros w' n m g Hg. destruct (analyze_some_parts w' n m g Hg) as (?&?&?&?).
  done.
Qed.

End AnalyzeRepository.

(** ** A batch of repositories *)

Section Batch.

Variable schemas : Schemas.

Lemma analyze_flag_unused (w : World) (n : string) (m m' : bool) :
  _analyze_repository schemas w n m = _analyze_repository schemas w n m'.
Proof. reflexivity. Qed.

Lemma analyze_each_flag_unused (names : list string) :
  ∀ w m m' acc,
    analyze_each schemas w names m acc = analyze_each schemas w names m' acc.
Proof.
  induction names as [|n names IH]; intros w m m' acc; cbn [analyze_each];
    [done|].
  rewrite (analyze_flag_unused w n m m').
  destruct (_analyze_repository schemas w n m') as [w' o]. apply IH.
Qed.

(** X4. The [include_metrics] flag of a request has no effect: the
    response and the prompts given to the model are the same whatever its
    value. *)
Theorem include_metrics_ignored (w : World) (names : list string)
    (m m' : bool) :
  process_request schemas w {| repositories := names; include_metrics := m |}
  = process_request schemas w
      {| repositories := names; include_metrics := m' |}.
Proof.
  unfold process_request, process_request_try.
  cbn [repositories include_metrics].
  by rewrite (analyze_each_flag_unused (take 10 names) w m m' []).
Qed.

Lemma analyze_each_none (names : list string) :
  Forall (λ n, has_separator n = false) names →
  ∀ w m acc, analyze_each schemas w names m acc = (w, acc).
Proof.
  induction 1 as [|n names Hn _ IH]; intros w m acc; cbn [analyze_each];
    [done|].
  by rewrite (analyze_no_separator schemas w n m Hn), IH.
Qed.

(** X5. When none of the first 10 identifiers has a separator, and so for
    an empty list, the response is the fixed "No repositories could be
    analyzed." with no record and a count of 0, and the model is not asked
    anything. *)
Theorem nothing_to_analyse (w : World) (request : RepoIntelRequest) :
  Forall (λ n, has_separator n = false) (take 10 (repositories request)) →
  process_request schemas w request = (w, nothing_analysed w).
Proof.
  intros H. unfold process_request, process_request_try.
  by rewrite (analyze_each_none _ H).
Qed.

Lemma filter_length_le {A} (P : A → Prop) `{!∀ x, Decision (P x)}
    (l : list A) :
  (length (filter P l) ≤ length l)%nat.
Proof. apply sublist_length, sublist_filter. Qed.

Lemma process_request_prompts (w : World) (request : RepoIntelRequest) :
  ∃ rest,
    prompts (fst (process_request schemas w request))
    = prompts w
      ++ (lookup_prompt
            <$> filter (λ n, has_separator n = true)
                  (take 10 (repositories request)))
      ++ rest
    ∧ (length rest ≤ 1)%nat
    ∧ (resp_repositories (snd (process_request schemas w request)) ≠ [] →
       length rest = 1%nat).
Proof.
  unfold process_request, process_request_try.
  pose proof (analyze_each_prompts schemas (take 10 (repositories request)) w
                (include_metrics request) []) as Hp.
  destruct (analyze_each _ _ _ _ _) as [w1 [|g gs]]; cbn [fst] in *.
  - exists []. rewrite app_nil_r. split; [done|]. split; [cbn; lia | done].
  - exists [analysis_prompt schemas (g :: gs)].
    split; [|done].
    destruct (respond w1 (prompts w1) (analysis_prompt schemas (g :: gs)))
      as [run|e] eqn:E; unfold agent_run; rewrite E; cbn;
      by rewrite Hp, <- app_assoc.
Qed.

(** X6. A response never has more than 10 records, nor more records than
    the request has identifiers, and handling one request asks the model
    at most 11 times: once for each of at most 10 identifiers and once for
    the summary. *)
Theorem process_request_bounds (w : World) (request : RepoIntelRequest) :
  0 ≤ total_repos (snd (process_request schemas w request)) ≤ 10
  ∧ total_repos (snd (process_request schemas w request))
    ≤ Z.of_nat (length (repositories request))
  ∧ (length (prompts (fst (process_request schemas w request)))
     ≤ length (prompts w) + 11)%nat.
Proof.
  pose proof (sublist_length _ _ (response_identifiers schemas w request)) as Hl.
  rewrite length_fmap in Hl.
  pose proof (filter_length_le (λ n, has_separator n = true)
                (take 10 (repositories request))) as Hf.
  rewrite length_take in Hf.
  rewrite response_count.
  destruct (process_request_prompts w request) as (rest & -> & Hr & _).
  rewrite !length_app, length_fmap.
  pose proof (filter_length_le (λ n, has_separator n = true)
                (take 10 (repositories request))) as Hf'.
  rewrite length_take in Hf'. lia.
Qed.

Lemma respond_agent_run (w : World) (p : string) :
  respond (fst (agent_run w p)) = respond w.
Proof. reflexivity. Qed.

Lemma respond_analyze (w : World) (n : string) (m : bool) :
  respond (fst (_analyze_repository schemas w n m)) = respond w.
Proof.
  destruct (has_separator n) eqn:Hs.
  - by rewrite analyze_with_separator.
  - by rewrite analyze_no_separator.
Qed.

Lemma always_resolves_step (w w' : World) :
  respond w' = respond w → always_resolves w → always_resolves w'.
Proof. unfold always_resolves. by intros ->. Qed.

Lemma analyze_resolved (w : World) (n : string) (m : bool) :
  (∀ g, repository_valid schemas g = true) →
  always_resolves w →
  has_separator n = true →
  ∃ g, snd (_analyze_repository schemas w n m) = Some g ∧ full_name g = n.
Proof.
  intros Hvalid Hw Hs.
  destruct (split_once_joins n Hs) as (o & r & Hsplit & _).
  destruct (Hw (prompts w) (lookup_prompt n))
    as (run & Hrun & [[[d mt] lic] Hd]).
  exists (repository_of n o r d mt lic). split; [|done].
  apply analyze_some_iff. by exists o, r, run, d, mt, lic.
Qed.

Lemma analyze_each_resolved (names : list string) :
  (∀ g, repository_valid schemas g = true) →
  ∀ w m acc,
    always_resolves w →
    full_name <$> snd (analyze_each schemas w names m acc)
    = (full_name <$> acc) ++ filter (λ n, has_separator n = true) names
    ∧ respond (fst (analyze_each schemas w names m acc)) = respond w.
Proof.
  intros Hvalid. induction names as [|n names IH]; intros w m acc Hw;
    cbn [analyze_each].
  - by rewrite app_nil_r.
  - pose proof (respond_analyze w n m) as Hr.
    destruct (has_separator n) eqn:Hs.
    + destruct (analyze_resolved w n m Hvalid Hw Hs) as (g & Hg & Hn).
      destruct (_analyze_repository schemas w n m) as [w' o].
      cbn [fst snd] in *. subst o.
      destruct (IH w' m (acc ++ [g]) (always_resolves_step _ _ Hr Hw))
        as [-> ->].
      rewrite filter_cons_True by done.
      rewrite fmap_app, <- app_assoc. cbn. by rewrite Hn.
    + rewrite (analyze_no_separator schemas w n m Hs).
      rewrite filter_cons_False by congruence. by apply IH.
Qed.

(** X7. When the model answers every prompt with usable details and the
    declaration accepts every record, the response lists exactly the
    identifiers among the first 10 that have a separator, in their order
    and with their repetitions, and counts them. *)
Theorem all_resolved (w : World) (request : RepoIntelRequest) :
  (∀ g, repository_valid schemas g = true) →
  always_resolves w →
  full_name <$> resp_repositories (snd (process_request schemas w request))
  = filter (λ n, has_separator n = true) (take 10 (repositories request))
  ∧ total_repos (snd (process_request schemas w request))
    = Z.of_nat (length (filter (λ n, has_separator n = true)
                          (take 10 (repositories request)))).
Proof.
  intros Hvalid Hw.
  assert (full_name <$> resp_repositories (snd (process_request schemas w request))
          = filter (λ n, has_separator n = true)
              (take 10 (repositories request))) as Hnames.
  { unfold process_request, process_request_try.
    destruct (analyze_each_resolved (take 10 (repositories request)) Hvalid w
                (include_metrics request) [] Hw) as [Hn Hr].
    destruct (analyze_each _ _ _ _ _) as [w1 [|g gs]]; cbn [fst snd] in *;
      [done|].
    unfold agent_run.
    destruct (Hw (prompts w1) (analysis_prompt schemas (g :: gs)))
      as (run & Hrun & _).
    rewrite Hr, Hrun. done. }
  split; [done|].
  by rewrite response_count, <- Hnames, length_fmap.
Qed.

End Batch.

(** *** Concrete batches *)

Lemma analyze_repository_drops_witness :
  _analyze_repository permissive unlicensed_world "a/b" true
  = (fst (agent_run unlicensed_world (lookup_prompt "a/b")), None)
  ∧ _analyze_repository permissive plain_text_world "tiangolo/fastapi" true
    = (fst (agent_run plain_text_world (lookup_prompt "tiangolo/fastapi")),
       None).
Proof.
  split.
  - apply (analyze_repository_drops permissive unlicensed_world "a/b" true);
      [reflexivity | by intros run [= <-]].
  - apply (analyze_repository_drops permissive plain_text_world
             "tiangolo/fastapi" true);
      [reflexivity | by intros run [= <-]].
Defined.

Lemma nothing_to_analyse_witness :
  process_request permissive helpful_world
    {| repositories := []; include_metrics := true |}
  = (helpful_world, nothing_analysed helpful_world)
  ∧ process_request permissive helpful_world
      {| repositories := ["badformat"; "also bad"]; include_metrics := true |}
    = (helpful_world, nothing_analysed helpful_world).
Proof.
  split.
  - apply (nothing_to_analyse permissive helpful_world). constructor.
  - apply (nothing_to_analyse permissive helpful_world).
    repeat constructor.
Defined.

Lemma helpful_world_resolves : always_resolves helpful_world.
Proof. intros history prompt. eexists. split; [reflexivity | by eexists]. Qed.

Lemma all_resolved_witness :
  full_name
    <$> resp_repositories
          (snd (process_request permissive helpful_world
                  {| repositories := ["a/b"; "badformat"; "a/b"; "c/d"];
                     include_metrics := false |}))
  = ["a/b"; "a/b"; "c/d"].
Proof.
  exact (proj1 (all_resolved permissive helpful_world
                  {| repositories := ["a/b"; "badformat"; "a/b"; "c/d"];
                     include_metrics := false |}
                  (λ _, eq_refl) helpful_world_resolves)).
Defined.

(** ** Delegation, continued *)

Section DelegationMore.

Variable schemas : Schemas.

Lemma mapM_as_str (names : list string) :
  mapM as_str (PStr <$> names) = Some names.
Proof. by apply mapM_fmap_Some. Qed.

Lemma delegated_wrapped (names : list string) :
  repo_request_valid schemas
    {| repositories := names;
       include_metrics := include_metrics_default schemas |} = true →
  delegated_request schemas (PDict (wrapped names))
  = Ok {| repositories := names;
          include_metrics := include_metrics_default schemas |}.
Proof.
  intros Hv. unfold delegated_request, wrapped. cbn.
  unfold RepoIntelRequest_new. by rewrite mapM_as_str, Hv.
Qed.

Lemma a2a_send_to_specialist (manager : AgentManager) (w : World)
    (request : A2ASendRequest) :
  recipient request = "specialist_agent" →
  is_Some (specialist_agent manager) →
  a2a_send schemas manager w request
  = match delegated_request schemas (PDict (payload request)) with
    | Ok rq =>
        let out := process_request schemas w rq in
        (out.1, {| status := "ok";
                   result := RepoIntelResponse_dict out.2;
                   resp_correlation_id := correlation_id request |})
    | Raise e =>
        (w, {| status := "error";
               result := [("error", PStr (exn_str e))];
               resp_correlation_id := correlation_id request |})
    end.
Proof.
  intros Hto Hsa.
  unfold a2a_send, receive_a2a_message, handle_delegation_from_entry.
  rewrite Hto, bool_decide_eq_true_2 by done.
  change ("specialist_agent" =? "specialist_agent")%string with true.
  cbn [andb].
  destruct (delegated_request schemas (PDict (payload request))) as [rq|e];
    [|done].
  by destruct (process_request schemas w rq).
Qed.

(** X8. A send to the specialist agent whose payload holds the identifiers
    under "repositories" of a dictionary under "payload" runs the
    repository pipeline on exactly those identifiers and returns its
    serialised response with status "ok", provided the request declaration
    accepts them. *)
Theorem delegation_runs_pipeline (manager : AgentManager) (w : World)
    (request : A2ASendRequest) (names : list string) :
  recipient request = "specialist_agent" →
  is_Some (specialist_agent manager) →
  payload request = wrapped names →
  repo_request_valid schemas
    {| repositories := names;
       include_metrics := include_metrics_default schemas |} = true →
  let out :=
    process_request schemas w
      {| repositories := names;
         include_metrics := include_metrics_default schemas |} in
  a2a_send schemas manager w request
  = (out.1, {| status := "ok";
               result := RepoIntelResponse_dict out.2;
               resp_correlation_id := correlation_id request |}).
Proof.
  intros Hto Hsa Hp Hv. cbn zeta.
  rewrite (a2a_send_to_specialist manager w request Hto Hsa), Hp.
  by rewrite (delegated_wrapped names Hv).
Qed.

(** X9. A send to the specialist agent whose payload has something other
    than a dictionary under "payload" is answered with status "error" and
    the text of the fault under "error"; nothing is raised and the model
    is not asked. *)
Theorem delegation_bad_payload (manager : AgentManager) (w : World)
    (request : A2ASendRequest) (v : pyval) :
  recipient request = "specialist_agent" →
  is_Some (specialist_agent manager) →
  dict_lookup (payload request) "payload" = Some v →
  (∀ d, v ≠ PDict d) →
  a2a_send schemas manager w request
  = (w, {| status := "error";
           result := [("error", PStr (exn_str (AttributeError (type_name v))))];
           resp_correlation_id := correlation_id request |}).
Proof.
  intros Hto Hsa Hp Hv.
  rewrite (a2a_send_to_specialist manager w request Hto Hsa).
  unfold delegated_request. cbn [py_get]. rewrite Hp. cbn [default].
  destruct v; try done. by destruct (Hv d).
Qed.

(** X10. The sender and the message type of a send are never looked at:
    two sends with the same recipient and payload get the same status and
    result and leave the same world; the correlation id is handed back as
    it came. *)
Theorem a2a_send_reads_recipient_and_payload (manager : AgentManager)
    (w : World) (r1 r2 : A2ASendRequest) :
  recipient r1 = recipient r2 →
  payload r1 = payload r2 →
  (a2a_send schemas manager w r1).1 = (a2a_send schemas manager w r2).1
  ∧ status (a2a_send schemas manager w r1).2
    = status (a2a_send schemas manager w r2).2
  ∧ result (a2a_send schemas manager w r1).2
    = result (a2a_send schemas manager w r2).2
  ∧ resp_correlation_id (a2a_send schemas manager w r1).2 = correlation_id r1.
Proof.
  intros Hr Hp. unfold a2a_send, receive_a2a_message. rewrite Hr, Hp.
  destruct (_ && _).
  - by destruct (handle_delegation_from_entry schemas w (PDict (payload r2)))
      as [w' [d|e]].
  - done.
Qed.

End DelegationMore.

Lemma delegation_runs_pipeline_witness :
  dict_lookup
    (result
       (a2a_send permissive ready_manager helpful_world
          {| sender := "entry_agent"; recipient := "specialist_agent";
             a2a_message_type := "repo_analysis";
             payload := wrapped ["a/b"]; correlation_id := None |}).2)
    "total_repos"
  = Some (PInt 1).
Proof.
  rewrite (delegation_runs_pipeline permissive ready_manager helpful_world
             {| sender := "entry_agent"; recipient := "specialist_agent";
                a2a_message_type := "repo_analysis";
                payload := wrapped ["a/b"]; correlation_id := None |}
             ["a/b"] eq_refl (ex_intro _ demo_specialist eq_refl) eq_refl
             eq_refl).
  reflexivity.
Defined.

Lemma delegation_bad_payload_witness :
  status
    (a2a_send permissive ready_manager helpful_world
       {| sender := "entry_agent"; recipient := "specialist_agent";
          a2a_message_type := "repo_analysis";
          payload := [("payload", PStr "a/b")]; correlation_id := None |}).2
  = "error".
Proof.
  rewrite (delegation_bad_payload permissive ready_manager helpful_world
             {| sender := "entry_agent"; recipient := "specialist_agent";
                a2a_message_type := "repo_analysis";
                payload := [("payload", PStr "a/b")];
                correlation_id := None |}
             (PStr "a/b") eq_refl (ex_intro _ demo_specialist eq_refl)
             eq_refl); [reflexivity | done].
Defined.

Lemma a2a_send_reads_recipient_and_payload_witness :
  result
    (a2a_send permissive ready_manager helpful_world
       (delegation "specialist_agent")).2
  = result
      (a2a_send permissive ready_manager helpful_world
         {| sender := "nobody"; recipient := "specialist_agent";
            a2a_message_type := "no such type";
            payload := delegation_payload; correlation_id := None |}).2.
Proof.
  exact (proj1 (proj2 (proj2
           (a2a_send_reads_recipient_and_payload permissive ready_manager
              helpful_world (delegation "specialist_agent")
              {| sender := "nobody"; recipient := "specialist_agent";
                 a2a_message_type := "no such type";
                 payload := delegation_payload; correlation_id := None |}
              eq_refl eq_refl)))).
Defined.

(** ** The tools, continued *)

Section ToolsMore.

Variable limit : Z.
Variable mcp : MCPClientManager.



(** X12. The story type of [get_hacker_news_stories] is looked up without
    regard to case: two spellings of one of the known types ("top", "new",
    "best") make the same call. *)
Theorem story_type_ignores_case (w : World) (s1 s2 : string) (n : Z) :
  lower s1 = lower s2 →
  is_Some (type_map !! lower s1) →
  get_hacker_news_stories mcp w s1 n = get_hacker_news_stories mcp w s2 n.
Proof.
  intros Hl [t Ht]. unfold get_hacker_news_stories.
  destruct (get_client mcp "hacker_news") as [c|]; [|done].
  by rewrite <- Hl, Ht.
Qed.

End ToolsMore.

Lemma story_type_ignores_case_witness :
  get_hacker_news_stories news_registry helpful_world "TOP" 5
  = get_hacker_news_stories news_registry helpful_world "top" 5
  ∧ get_hacker_news_stories news_registry helpful_world "Best" 5
    = (helpful_world,
       Ok (PDict [("operation", PStr "get_stories");
                  ("story_type", PStr "beststories"); ("limit", PInt 5)])).
Proof.
  split.
  - apply (story_type_ignores_case news_registry helpful_world "TOP" "top" 5);
      [reflexivity | by eexists].
  - reflexivity.
Defined.

(** A story type that is not known is passed on as it was typed, and a
    faulting client gives an error mapping. *)
Example tools_on_news_registry :
  get_hacker_news_stories news_registry helpful_world "Ask" 3
  = (helpful_world,
     Ok (PDict [("operation", PStr "get_stories");
                ("story_type", PStr "Ask"); ("limit", PInt 3)]))
  ∧ get_github_repo_details news_registry helpful_world "a" "b"
    = (helpful_world, Ok (PDict [("error", PStr "timed out")]))
  ∧ search_brave 20 news_registry helpful_world "rust" "pm"
    = (helpful_world,
       Ok (PDict [("error", PStr "Brave Search MCP client not available")])).
Proof. by vm_compute. Qed.

(** ** The lifecycle of the manager *)

Section LifecycleFacts.

Context {Agent : Type}.
Variable services : Services Agent.
Variable schemas : Schemas.

Lemma initialize_cases (w : World) (self : AgentManager) :
  match initialize services (w, self) with
  | ((w', self'), Ok _) =>
      initialized self' = true
      ∧ is_Some (entry_agent self')
      ∧ is_Some (a2a_service self')
      ∧ ∃ m, mcp_manager self' = Some m
             ∧ specialist_agent self' = Some (new_specialist_agent m)
  | ((w', self'), Raise _) => initialized self' = initialized self
  end.
Proof.
  unfold initialize, mbind, init_mbind, call, assign. cbn.
  destruct (new_mcp_manager services w) as [w1 [m|e]]; cbn; [|done].
  destruct (aenter services m w1) as [w2 [[]|e]]; cbn; [|done].
  destruct (new_factory services m w2) as [w3 [[]|e]]; cbn; [|done].
  destruct (create_agent services m _ w3) as [w4 [pa1|e]]; cbn; [|done].
  destruct (new_entry_agent services pa1 m w4) as [w5 [entry|e]]; cbn; [|done].
  destruct (create_agent services m _ w5) as [w6 [pa2|e]]; cbn; [|done].
  destruct (new_a2a_service services w6) as [w7 [a|e]]; cbn; [|done].
  destruct (start_server services a w7) as [w8 [[]|e]]; cbn; [|done].
  destruct (register_agent services a _ pa1 w8) as [w9 [[]|e]]; cbn; [|done].
  destruct (register_agent services a _ pa2 w9) as [w10 [[]|e]]; cbn; [|done].
  repeat split; by eexists.
Qed.


Lemma shutdown_cases (w : World) (self : AgentManager) :
  match shutdown_try services (w, self) with
  | ((w', self'), Ok _) => self' = set_initialized false self
  | ((w', self'), Raise _) => self' = self
  end.
Proof.
  unfold shutdown_try, mbind, init_mbind, mret, init_mret, call, assign. cbn.
  destruct (a2a_service self) as [a|]; cbn.
  - destruct (stop_server services a w) as [w1 [[]|e]]; cbn; [|done].
    destruct (mcp_manager self) as [m|]; cbn; [|done].
    by destruct (aexit services m w1) as [w2 [[]|e]].
  - destruct (mcp_manager self) as [m|]; cbn; [|done].
    by destruct (aexit services m w) as [w2 [[]|e]].
Qed.


(** X15. When the A2A service faults while stopping, [shutdown] leaves the
    manager as it was (a ready manager stays ready for the routes), and
    the registry is not closed: the world is the one the faulting call
    left. *)
Theorem shutdown_fault (w w1 : World) (self : AgentManager) (a : A2AService)
    (e : exn) :
  a2a_service self = Some a →
  stop_server services a w = (w1, Raise e) →
  shutdown services (w, self) = (w1, self)
  ∧ get_agent_manager (shutdown services (w, self)).2 = get_agent_manager self.
Proof.
  intros Ha Hstop.
  assert (shutdown services (w, self) = (w1, self)) as ->; [|done].
  unfold shutdown, shutdown_try, mbind, init_mbind, call. cbn.
  rewrite Ha. cbn. by rewrite Hstop.
Qed.

(** X16. From ready to stopped: on the manager a successful [initialize]
    leaves, the dependency of the routes accepts the manager and the
    repository operation returns the response of [process_request]; once
    [shutdown] has run without a fault, the dependency refuses the manager
    and the operation raises "Agent manager not initialized" without
    asking the model, although the agents are still there. *)
Theorem ready_then_stopped (w w1 w2 : World) (self self1 self2 : AgentManager) :
  initialize services (w, self) = ((w1, self1), Ok tt) →
  shutdown_try services (w1, self1) = ((w2, self2), Ok tt) →
  get_agent_manager self1 = Ok self1
  ∧ (∀ w' request,
       process_repo_intel_request schemas self1 w' request
       = ((process_request schemas w' request).1,
          Ok (process_request schemas w' request).2))
  ∧ is_ok (get_agent_manager self2) = false
  ∧ (∀ w' request,
       process_repo_intel_request schemas self2 w' request
       = (w', Raise not_initialized))
  ∧ specialist_agent self2 = specialist_agent self1.
Proof.
  intros Hinit Hstop.
  pose proof (initialize_cases w self) as H1. rewrite Hinit in H1.
  destruct H1 as (Hi & _ & _ & m & _ & Hsa).
  pose proof (shutdown_cases w1 self1) as H2. rewrite Hstop in H2. subst self2.
  unfold get_agent_manager, process_repo_intel_request.
  cbn [set_initialized initialized specialist_agent]. rewrite Hi, Hsa.
  repeat split; try done.
  intros w' request. cbn.
  by destruct (process_request schemas w' request).
Qed.

End LifecycleFacts.

Lemma initialize_outcome_keyless :
  (initialize keyless_services (helpful_world, new_manager)).2
  = Raise (Exception "OpenAIError" "The api_key client option must be set")
  ∧ initialized (initialize keyless_services (helpful_world, new_manager)).1.2
    = false
  ∧ is_Some (mcp_manager
               (initialize keyless_services (helpful_world, new_manager)).1.2).
Proof. repeat split. by eexists. Qed.

Lemma shutdown_fault_witness :
  shutdown stuck_services (helpful_world, ready_manager)
  = (helpful_world, ready_manager)
  ∧ get_agent_manager (shutdown stuck_services (helpful_world, ready_manager)).2
    = Ok ready_manager.
Proof.
  exact (shutdown_fault stuck_services helpful_world helpful_world
           ready_manager demo_a2a
           (Exception "RuntimeError" "server busy") eq_refl eq_refl).
Defined.

Lemma ready_then_stopped_witness :
  ∃ self1 self2,
    (initialize demo_services (helpful_world, new_manager)).1.2 = self1
    ∧ get_agent_manager self1 = Ok self1
    ∧ is_ok (get_agent_manager self2) = false
    ∧ process_repo_intel_request permissive self2 helpful_world
        {| repositories := ["a/b"]; include_metrics := true |}
      = (helpful_world, Raise not_initialized).
Proof.
  eexists _, _.
  destruct (ready_then_stopped demo_services permissive helpful_world
              helpful_world helpful_world new_manager _ _ eq_refl eq_refl)
    as (H1 & _ & H3 & H4 & _).
  split; [reflexivity|]. split; [exact H1|]. split; [exact H3|]. apply H4.
Defined.

(** ** The routes *)

Section RouteFacts.

Variable schemas : Schemas.
Variable app_version : string.
Variable health_response_valid : HealthResponse -> bool.

(** X17. The repositories route, behind its dependency: 503 while the
    manager is not initialized; on an initialized manager with a
    specialist agent always a response, the one of [process_request]
    (never a 500, whatever the model does); 500 only for an initialized
    manager without a specialist agent. *)
Theorem repositories_route (agent_manager : AgentManager) (w : World)
    (request : RepoIntelRequest) :
  depends_on_manager agent_manager w
    (λ manager w', analyze_repositories schemas manager w' request)
  = if initialized agent_manager then
      match specialist_agent agent_manager with
      | Some _ =>
          ((process_request schemas w request).1,
           Respond (process_request schemas w request).2)
      | None => (w, HTTPException 500 "Agent manager not initialized")
      end
    else (w, HTTPException 503 "Agent manager not initialized").
Proof.
  unfold depends_on_manager, get_agent_manager, analyze_repositories,
    process_repo_intel_request.
  destruct (initialized agent_manager) eqn:Hi; cbn [negb]; [|done].
  rewrite Hi. cbn [negb orb].
  destruct (specialist_agent agent_manager) as [sa|].
  - rewrite bool_decide_eq_true_2 by done. cbn [negb].
    by destruct (process_request schemas w request).
  - rewrite bool_decide_eq_false_2 by (by intros [? ?]). done.
Qed.

(** X18. The chat route, behind its dependency: 503 exactly while the
    manager is not initialized. On an initialized manager every fault
    leaves as a 500, the route's own "Entry agent not available" (raised
    as a 503 inside its [try]) included, and without an entry agent the
    model is not asked; otherwise the answer is the one of
    [process_general_chat]. *)
Theorem general_chat_route (agent_manager : AgentManager) (w : World)
    (request : GeneralChatRequest) :
  depends_on_manager agent_manager w
    (λ manager w', general_chat manager w' request)
  = (if initialized agent_manager then
       match entry_agent agent_manager with
       | Some entry =>
           ((process_general_chat entry w request).1,
            or_http 500 (process_general_chat entry w request).2)
       | None =>
           (w, HTTPException 500
                 (exn_str (http_exn 503 "Entry agent not available")))
       end
     else (w, HTTPException 503 "Agent manager not initialized"))
  ∧ ∀ status_code detail,
      (depends_on_manager agent_manager w
         (λ manager w', general_chat manager w' request)).2
      = HTTPException status_code detail →
      status_code = if initialized agent_manager then 500 else 503.
Proof.
  unfold depends_on_manager, get_agent_manager, general_chat.
  destruct (initialized agent_manager); cbn [negb].
  - destruct (entry_agent agent_manager) as [entry|].
    + destruct (process_general_chat entry w request) as [w' [r|e]]; cbn.
      * split; [done | by intros ? ? [=]].
      * split; [done | by intros ? ? [= <- _]].
    + split; [done | by intros ? ? [= <- _]].
  - split; [done | by intros ? ? [= <- _]].
Qed.

(** X19. The assistant route replaces a missing limit and a limit of 0 by
    10: such a request is handled as the same request with limit 10. *)
Theorem assistant_limit_default (manager : AgentManager) (w : World)
    (request : AssistantRouteRequest) :
  ar_limit request = None ∨ ar_limit request = Some 0 →
  assistant_router schemas manager w request
  = assistant_router schemas manager w
      {| ar_input := ar_input request;
         ar_limit := Some 10;
         ar_include_hn := ar_include_hn request;
         ar_include_brave := ar_include_brave request |}.
Proof. unfold assistant_router. by intros [-> | ->]. Qed.

(** X20. Routing fails open: whenever the classifier's answer is not
    exactly "TECH", the text goes to the chat pipeline and the trend
    pipeline is not run; the limit and the two source flags play no part. *)
Theorem route_to_chat (manager : AgentManager) (entry : EntryAgent)
    (w w1 w2 : World) (text classification : string) (limit : Z)
    (hn brave : bool) (answer : GeneralChatResponse) :
  initialized manager = true →
  entry_agent manager = Some entry →
  classify_query entry w text = (w1, Ok classification) →
  classification ≠ "TECH" →
  chat_request_valid schemas {| message := text |} = true →
  process_general_chat entry w1 {| message := text |} = (w2, Ok answer) →
  route_user_intent schemas manager w text limit hn brave
  = (w2, Ok [("route", PStr "chat");
             ("data", PDict (GeneralChatResponse_dict answer))]).
Proof.
  intros Hi He Hc Hne Hv Hchat. unfold route_user_intent.
  rewrite Hi, He, Hc, bool_decide_eq_true_2 by done. cbn [negb orb].
  destruct (String.eqb_spec classification "TECH"); [done|].
  unfold GeneralChatRequest_new. by rewrite Hv, Hchat.
Qed.

Lemma health_check_flag (manager : AgentManager) (w w' : World)
    (hs : HealthStatus) :
  health_check manager w = (w', Ok hs) →
  hs_initialized hs = initialized manager.
Proof.
  unfold health_check.
  destruct (probe_if_present _ entry_health_check w) as [w1 [h1|e]]; [|done].
  destruct (probe_if_present _ specialist_health_check w1) as [w2 [h2|e]];
    [|done].
  destruct (probe_if_present _ health_check_all w2) as [w3 [h3|e]]; [|done].
  destruct (probe_if_present _ a2a_health_check w3) as [w4 [h4|e]]; [|done].
  by intros [= _ <-].
Qed.

Lemma forallb_truthy_false (servers : pydict) :
  forallb truthy servers.*2 = false ↔
  Exists (λ kv, truthy kv.2 = false) servers.
Proof.
  induction servers as [|[k v] servers IH]; cbn [fmap list_fmap forallb].
  - split; [done | by intros ?%Exists_nil].
  - by rewrite Exists_cons, andb_false_iff, IH.
Qed.

Lemma forallb_truthy_true (servers : pydict) :
  forallb truthy servers.*2 = true ↔
  Forall (λ kv, truthy kv.2 = true) servers.
Proof.
  induction servers as [|[k v] servers IH]; cbn [fmap list_fmap forallb].
  - split; [constructor | done].
  - by rewrite Forall_cons, andb_true_iff, IH.
Qed.

Lemma health_response_status (w : World) (hs : HealthStatus)
    (r : HealthResponse) :
  hs_initialized hs = true →
  health_response app_version health_response_valid w hs = Ok r →
  ∃ servers,
    hr_mcp_servers r = PDict servers
    ∧ hr_status r
      = if forallb truthy servers.*2 then "healthy" else "degraded".
Proof.
  intros Hi. unfold health_response. rewrite Hi. cbn [negb].
  destruct (hs_mcp_servers hs) as [| | | | | |servers]; try done.
  cbn [py_values mbind res_mbind res_bind].
  destruct (mapM _ (hs_agents hs)) as [statuses|e];
    cbn [mbind res_mbind res_bind]; [|done].
  destruct (health_response_valid _); [|done].
  intros [= <-]. exists servers. split; [done|]. cbn.
  by destruct (forallb truthy servers.*2).
Qed.

(** X21. Behind its dependency, when the health route responds, the
    status is "degraded" exactly when the registry's probe gave some
    capability a falsy flag, and "healthy" otherwise; so a manager whose
    registry reports no capability at all is healthy. *)
Theorem health_route_status (agent_manager : AgentManager) (w w' : World)
    (r : HealthResponse) :
  depends_on_manager agent_manager w
    (health_route app_version health_response_valid) = (w', Respond r) →
  ∃ servers,
    hr_mcp_servers r = PDict servers
    ∧ (hr_status r = "degraded" ↔
       Exists (λ kv, truthy kv.2 = false) servers)
    ∧ (hr_status r = "healthy" ↔
       Forall (λ kv, truthy kv.2 = true) servers).
Proof.
  unfold depends_on_manager, get_agent_manager, health_route.
  destruct (initialized agent_manager) eqn:Hi; cbn [negb]; [|done].
  destruct (health_check agent_manager w) as [w1 [hs|e]] eqn:Hh;
    cbn [mbind res_mbind res_bind or_http]; [|done].
  pose proof (health_check_flag _ _ _ _ Hh) as Hflag. rewrite Hi in Hflag.
  destruct (health_response _ _ w1 hs) as [r'|e] eqn:Hr; cbn; [|done].
  intros [= <- <-].
  destruct (health_response_status w1 hs r' Hflag Hr) as (servers & Hs & Hst).
  exists servers. split; [done|]. rewrite Hst.
  rewrite <- forallb_truthy_false, <- forallb_truthy_true.
  by destruct (forallb truthy servers.*2).
Qed.

(** X22. A fault of the entry agent's probe makes the health route answer
    503 with the text of the fault: no status of any component is
    reported. *)
Theorem health_route_probe_fault (manager : AgentManager) (entry : EntryAgent)
    (w w1 : World) (e : exn) :
  entry_agent manager = Some entry →
  entry_health_check entry w = (w1, Raise e) →
  health_route app_version health_response_valid manager w
  = (w1, HTTPException 503 (exn_str e)).
Proof.
  intros He Hp. unfold health_route, health_check, probe_if_present.
  by rewrite He, Hp.
Qed.

End RouteFacts.

(** *** The routes on concrete managers *)

Lemma general_chat_route_witness :
  depends_on_manager half_manager helpful_world
    (λ manager w', general_chat manager w' {| message := "hello" |})
  = (helpful_world, HTTPException 500 "503: Entry agent not available")
  ∧ depends_on_manager stopped_manager helpful_world
      (λ manager w', general_chat manager w' {| message := "hello" |})
    = (helpful_world, HTTPException 503 "Agent manager not initialized").
Proof.
  split.
  - exact (proj1 (general_chat_route half_manager helpful_world
                    {| message := "hello" |})).
  - exact (proj1 (general_chat_route stopped_manager helpful_world
                    {| message := "hello" |})).
Defined.

Lemma assistant_limit_default_witness :
  assistant_router permissive ready_manager helpful_world
    {| ar_input := "rust"; ar_limit := Some 0; ar_include_hn := true;
       ar_include_brave := false |}
  = assistant_router permissive ready_manager helpful_world
      {| ar_input := "rust"; ar_limit := Some 10; ar_include_hn := true;
         ar_include_brave := false |}.
Proof.
  exact (assistant_limit_default permissive ready_manager helpful_world
           {| ar_input := "rust"; ar_limit := Some 0; ar_include_hn := true;
              ar_include_brave := false |} (or_intror eq_refl)).
Defined.

Lemma route_to_chat_witness :
  ∃ w2 answer,
    route_user_intent permissive chat_manager helpful_world "rust" 10 true true
    = (w2, Ok [("route", PStr "chat");
               ("data", PDict (GeneralChatResponse_dict answer))])
    ∧ prompts w2 = ["classify: rust"; "rust"].
Proof.
  eexists _, _. split.
  - apply (route_to_chat permissive chat_manager chatty_entry helpful_world
             _ _ "rust" "tech" 10 true true _ eq_refl eq_refl eq_refl);
      [discriminate | reflexivity | reflexivity].
  - reflexivity.
Defined.

Lemma health_route_status_witness :
  ∃ w' r,
    depends_on_manager news_manager helpful_world
      (health_route "1.0.0" (λ _, true)) = (w', Respond r)
    ∧ hr_status r = "degraded"
    ∧ hr_agents_status r
      = [("entry_agent", PStr "healthy"); ("specialist_agent", PStr "healthy")].
Proof.
  eexists _, _. split; [reflexivity|]. split; [|reflexivity].
  destruct (health_route_status "1.0.0" (λ _, true) news_manager helpful_world
              _ _ eq_refl) as (servers & Hs & Hd & _).
  apply Hd. injection Hs as <-. apply Exists_cons_tl, Exists_cons_hd.
  reflexivity.
Defined.

(** A registry that reports no capability is healthy. *)
Example health_route_empty_registry :
  ∃ r,
    depends_on_manager ready_manager helpful_world
      (health_route "1.0.0" (λ _, true)) = (helpful_world, Respond r)
    ∧ hr_status r = "healthy" ∧ hr_mcp_servers r = PDict [].
Proof. by eexists. Qed.

Lemma health_route_probe_fault_witness :
  health_route "1.0.0" (λ _, true) degraded_manager helpful_world
  = (helpful_world, HTTPException 503 "probe timed out").
Proof.
  exact (health_route_probe_fault "1.0.0" (λ _, true) degraded_manager
           unreachable_entry helpful_world helpful_world probe_fault
           eq_refl eq_refl).
Defined.

(** ** Text extraction, continued *)

Section ExtractMore.

Lemma starts_with_length (pat s : string) :
  Str.starts_with pat s = true → (String.length pat ≤ String.length s)%nat.
Proof.
  revert s. induction pat as [|a pat IH]; intros s; cbn; [lia|].
  destruct s as [|b s]; [done|].
  intros [_ H]%andb_true_iff. specialize (IH s H). cbn. lia.
Qed.

Lemma rfind_bound (pat s : string) (j : nat) :
  Str.rfind pat s = Some j →
  (j + String.length pat ≤ String.length s)%nat.
Proof.
  revert j. induction s as [|c s IH]; intros j; cbn [Str.rfind].
  - destruct (Str.starts_with pat "") eqn:E; [|done].
    intros [= <-]. by apply starts_with_length in E.
  - destruct (Str.rfind pat s) as [i|].
    + intros [= <-]. specialize (IH i eq_refl). cbn. lia.
    + destruct (Str.starts_with pat (String c s)) eqn:E; [|done].
      intros [= <-]. by apply starts_with_length in E.
Qed.

Lemma slice_in_range (s : string) (a b : nat) :
  (a ≤ b)%nat → (b ≤ String.length s)%nat →
  Str.slice s (Z.of_nat a) (Z.of_nat b) = String.substring a (b - a) s.
Proof.
  intros Hab Hb. unfold Str.slice, Str.clamp.
  destruct (Z.ltb_spec (Z.of_nat a) 0); [lia|].
  destruct (Z.ltb_spec (Z.of_nat b) 0); [lia|].
  rewrite !Z.min_l by lia.
  by rewrite <- Nat2Z.inj_sub, !Nat2Z.id by done.
Qed.

(** X23. [_extract_content] returns the text between the end of the first
    "output='" and the last "')", with every backslash-quote turned into a
    quote, when the input has the marker and the two are found in that
    order with something between them; in every other case (no marker, no
    "output='", no "')", or a "')" that does not come after) it returns
    the input as it is. The -1 of a failed search and the bounds of the
    slice never pick another text. *)
Theorem extract_content_between (s : string) :
  _extract_content s
  = match wrapper_bounds s with
    | Some (a, b) => unescape_quotes (String.substring a (b - a) s)
    | None => s
    end
  ∧ ∀ a b, wrapper_bounds s = Some (a, b) →
           (8 ≤ a < b)%nat ∧ (b + 2 ≤ String.length s)%nat.
Proof.
  unfold _extract_content, wrapper_bounds, Str.py_find, Str.py_rfind.
  destruct (Str.contains "AgentRunResult(output=" s); [|done].
  destruct (Str.find "output='" s) as [i|]; cbn [Str.index_or_minus1];
    [|done].
  destruct (Z.gtb_spec (Z.of_nat i + 8) 7) as [_|]; [|lia].
  destruct (Str.rfind "')" s) as [j|] eqn:Hj; cbn [Str.index_or_minus1].
  - apply rfind_bound in Hj. cbn [String.length] in Hj.
    destruct (Nat.ltb_spec (i + 8) j) as [Hlt|Hge].
    + destruct (Z.gtb_spec (Z.of_nat j) (Z.of_nat i + 8)); [|lia].
      split.
      * replace (Z.of_nat i + 8) with (Z.of_nat (i + 8)) by lia.
        by rewrite slice_in_range by lia.
      * intros a b [= <- <-]. lia.
    + destruct (Z.gtb_spec (Z.of_nat j) (Z.of_nat i + 8)); [lia|]. done.
  - destruct (Z.gtb_spec (-1) (Z.of_nat i + 8)); [lia|]. done.
Qed.

End ExtractMore.

(** A wrapper written with double quotes, as the text of an answer that
    holds an apostrophe is, stays. *)
Example extract_content_double_quotes :
  _extract_content (double_quoted "it's fine") = double_quoted "it's fine".
Proof. reflexivity. Qed.

(** ** Delegation: identifiers at the top level of the payload *)

Section DelegationTopLevel.

Variable schemas : Schemas.

(** X24. A send to the specialist agent whose payload has no "payload"
    entry, whatever else it holds (the identifiers under "repositories",
    say), is handled as a request without identifiers: status "ok", no
    record, a count of 0, and the model is not asked. *)
Theorem delegation_top_level_ignored (manager : AgentManager) (w : World)
    (request : A2ASendRequest) :
  recipient request = "specialist_agent" →
  is_Some (specialist_agent manager) →
  dict_lookup (payload request) "payload" = None →
  repo_request_valid schemas
    {| repositories := [];
       include_metrics := include_metrics_default schemas |} = true →
  a2a_send schemas manager w request
  = (w, {| status := "ok";
           result := RepoIntelResponse_dict (nothing_analysed w);
           resp_correlation_id := correlation_id request |}).
Proof.
  intros Hto Hsa Hp Hv.
  rewrite (a2a_send_to_specialist schemas manager w request Hto Hsa).
  unfold delegated_request. cbn [py_get]. rewrite Hp. cbn.
  unfold RepoIntelRequest_new. cbn. by rewrite Hv.
Qed.

End DelegationTopLevel.

Lemma delegation_top_level_ignored_witness :
  a2a_send permissive ready_manager helpful_world
    {| sender := "entry_agent"; recipient := "specialist_agent";
       a2a_message_type := "repo_analysis";
       payload := [("repositories", PList [PStr "a/b"; PStr "c/d"])];
       correlation_id := None |}
  = (helpful_world,
     {| status := "ok";
        result := RepoIntelResponse_dict (nothing_analysed helpful_world);
        resp_correlation_id := None |}).
Proof.
  exact (delegation_top_level_ignored permissive ready_manager helpful_world
           {| sender := "entry_agent"; recipient := "specialist_agent";
              a2a_message_type := "repo_analysis";
              payload := [("repositories", PList [PStr "a/b"; PStr "c/d"])];
              correlation_id := None |}
           eq_refl (ex_intro _ demo_specialist eq_refl) eq_refl eq_refl).
Defined.

(** ** The shape check of an identifier *)

Section SeparatorCheck.

Variable schemas : Schemas.

(** The loop sees only the identifiers that have a separator. *)
Lemma analyze_each_filter (names : list string) :
  ∀ w m acc,
    analyze_each schemas w names m acc
    = analyze_each schemas w
        (filter (λ n, has_separator n = true) names) m acc.
Proof.
  induction names as [|n names IH]; intros w m acc; [done|].
  destruct (has_separator n) eqn:Hs.
  - rewrite filter_cons_True by done. cbn [analyze_each].
    destruct (_analyze_repository schemas w n m) as [w' o]. apply IH.
  - rewrite filter_cons_False by congruence. cbn [analyze_each].
    rewrite (analyze_no_separator schemas w n m Hs). apply IH.
Qed.

Lemma process_request_filter (w : World) (request : RepoIntelRequest) :
  process_request schemas w request
  = process_request schemas w
      {| repositories :=
           filter (λ n, has_separator n = true)
             (take 10 (repositories request));
         include_metrics := include_metrics request |}.
Proof.
  unfold process_request, process_request_try.
  cbn [repositories include_metrics].
  rewrite (take_ge (filter _ _)).
  - by rewrite <- analyze_each_filter.
  - etrans; [apply filter_length_le|]. rewrite length_take. lia.
Qed.

(** C2 (amended). An identifier without any ['/'] is rejected by
    [_analyze_repository]: no record is returned and the model is not
    asked, and the rest of the batch is unaffected: the loop over a list
    that holds it gives what the loop over the list without it gives, and
    a request is processed exactly as the request made of those of its
    first 10 identifiers that have a ['/']. An identifier with one ['/']
    or more is not rejected: it is split at its first ['/'] (the owner is
    the text before it and has no ['/'], the name is all the rest), the
    model is asked about it once, and a record that comes back carries
    that owner, that name and the identifier. *)
Theorem no_separator_rejected (w : World) (repo_name : string) (m : bool) :
  (has_separator repo_name = false →
     _analyze_repository schemas w repo_name m = (w, None)
     ∧ ∀ w0 before after acc,
         analyze_each schemas w0 (before ++ repo_name :: after) m acc
         = analyze_each schemas w0 (before ++ after) m acc)
  ∧ (∀ request,
       process_request schemas w request
       = process_request schemas w
           {| repositories :=
                filter (λ n, has_separator n = true)
                  (take 10 (repositories request));
              include_metrics := include_metrics request |})
  ∧ (has_separator repo_name = true →
       ∃ o r,
         Str.split_once "/" repo_name = Some (o, r)
         ∧ has_separator o = false
         ∧ o +:+ "/" +:+ r = repo_name
         ∧ prompts (_analyze_repository schemas w repo_name m).1
           = prompts w ++ [lookup_prompt repo_name]
         ∧ ∀ g, (_analyze_repository schemas w repo_name m).2 = Some g →
                owner g = o ∧ name g = r ∧ full_name g = repo_name).
Proof.
  split; [|split].
  - intros Hs. split; [by apply analyze_no_separator|].
    intros w0 before after acc. by apply analyze_each_drop.
  - apply process_request_filter.
  - intros Hs.
    destruct (proj1 (has_separator_split repo_name) Hs) as (o & r & Hsplit).
    destruct (split_once_owner repo_name o r Hsplit) as [Ho Hj].
    exists o, r. split; [done|]. split; [done|]. split; [done|]. split.
    + by rewrite analyze_with_separator.
    + intros g Hg. apply analyze_some_iff in Hg
        as (o' & r' & run & d & mt & lic & Hs' & _ & _ & -> & _).
      rewrite Hsplit in Hs'. by injection Hs' as <- <-.
Qed.

End SeparatorCheck.

Lemma no_separator_rejected_witness :
  _analyze_repository permissive helpful_world "badformat" true
  = (helpful_world, None)
  ∧ analyze_each permissive helpful_world ["a/b"; "badformat"; "c/d"] true []
    = analyze_each permissive helpful_world ["a/b"; "c/d"] true []
  ∧ prompts (_analyze_repository permissive helpful_world "a/b/c" true).1
    = [lookup_prompt "a/b/c"]
  ∧ ∀ g, (_analyze_repository permissive helpful_world "a/b/c" true).2
         = Some g →
         owner g = "a" ∧ name g = "b/c" ∧ full_name g = "a/b/c".
Proof.
  destruct (no_separator_rejected permissive helpful_world "badformat" true)
    as (Hbad & _ & _).
  destruct (Hbad eq_refl) as [Hnone Hbatch].
  destruct (no_separator_rejected permissive helpful_world "a/b/c" true)
    as (_ & _ & Hgood).
  destruct (Hgood eq_refl) as (o & r & Hsplit & _ & _ & Hprompt & Hrecord).
  injection Hsplit as <- <-.
  split; [exact Hnone|].
  split; [exact (Hbatch helpful_world ["a/b"] ["c/d"] [])|].
  split; [exact Hprompt | exact Hrecord].
Defined.

(** Eleven identifiers, the first of them without a separator: it is among
    the 10 that are considered, so the eleventh is not. *)
Example eleventh_not_considered :
  let names :=
    ["bad"; "o/r02"; "o/r03"; "o/r04"; "o/r05"; "o/r06"; "o/r07"; "o/r08";
     "o/r09"; "o/r10"; "o/r11"] in
  total_repos
    (process_request permissive helpful_world
       {| repositories := names; include_metrics := true |}).2 = 9.
Proof. reflexivity. Qed.

(** ** Delegation: the payload of the specification *)

(** C3 (defect of the code). A send to a recipient the manager does not
    know is answered with status "error". A send to the specialist agent
    with the payload {"repositories": ["a/b"]} does not count the
    identifiers of the payload that resolve: the manager hands the payload
    itself to a handler that looks for them under a "payload" entry, so
    "a/b" is never looked up, the model is not asked, and the result has
    no record and [total_repos] 0, although the same model resolves "a/b"
    when the repository pipeline is given it. *)
Theorem delegation_payload_lost :
  a2a_send permissive ready_manager helpful_world (delegation "specialist_agent")
  = (helpful_world,
     {| status := "ok";
        result := RepoIntelResponse_dict (nothing_analysed helpful_world);
        resp_correlation_id := Some "c-1" |})
  ∧ dict_lookup (RepoIntelResponse_dict (nothing_analysed helpful_world))
      "total_repos" = Some (PInt 0)
  ∧ total_repos
      (process_request permissive helpful_world
         {| repositories := ["a/b"]; include_metrics := true |}).2 = 1
  ∧ status (a2a_send permissive ready_manager helpful_world
              (delegation "unknown_agent")).2 = "error".
Proof.
  split; [reflexivity|]. split; [reflexivity|].
  split; [by vm_compute | reflexivity].
Qed.
